(** * chatLLM: the conversation lifecycle of [server.py]

    A shallow embedding of the Flask backend's conversation routes
    ([api_conversations], [api_get_conversation], [api_new_chat],
    [reset_history], [chat]) together with the user-store helpers they call
    ([load_users]/[save_users], [get_user], [update_user]).

    - Python [str] values are sequences of Unicode code points ([list N]),
      so that [s[:50]], [s.split("\n")[0]] and [s.strip()] count what
      Python counts.
    - JSON objects read with [.get(key, default)] are records whose fields
      are [option]s: [None] is the absent key.
    - The three pieces of mutable state are threaded explicitly: the users
      file, the module-level list [conversation_history], and the Flask
      session of the requesting client.
    - The remote completion service is an input of [chat]: for each of the
      two endpoints, a function from the posted payload to what
      [requests.post(...)], [raise_for_status()] and [.json()] give back. *)

From Stdlib Require Import String Ascii.
From Stdlib Require Import ZArith NArith Lia.
From stdpp Require Import base list numbers.

Local Open Scope Z_scope.

(** ** Python text *)

Module Py.

(** A Python [str]: its code points. *)
Definition str := list N.

(** UTF-8 decoding, used only to write the source's string literals the
    way the source file writes them. *)
Fixpoint decode_utf8 (bs : list N) : str :=
  match bs with
  | [] => []
  | b0 :: r0 =>
    if (b0 <? 128)%N then b0 :: decode_utf8 r0
    else
      match r0 with
      | [] => []
      | b1 :: r1 =>
        if (b0 <? 224)%N then
          ((b0 - 192) * 64 + (b1 - 128))%N :: decode_utf8 r1
        else
          match r1 with
          | [] => []
          | b2 :: r2 =>
            if (b0 <? 240)%N then
              ((b0 - 224) * 4096 + (b1 - 128) * 64 + (b2 - 128))%N
                :: decode_utf8 r2
            else
              match r2 with
              | [] => []
              | b3 :: r3 =>
                ((b0 - 240) * 262144 + (b1 - 128) * 4096
                 + (b2 - 128) * 64 + (b3 - 128))%N :: decode_utf8 r3
              end
          end
      end
  end.

Definition lit (s : string) : str :=
  decode_utf8 (N_of_ascii <$> list_ascii_of_string s).

(** [not s] for a string: true on the empty string only. *)
Definition falsy (s : str) : bool :=
  match s with [] => true | _ :: _ => false end.

(** [a or b] on strings. *)
Definition or_else (a b : str) : str := if falsy a then b else a.

(** [str.isspace] on one code point: the code points CPython's
    [_PyUnicode_IsWhitespace] accepts. *)
Definition isspace (c : N) : bool :=
  ((9 <=? c) && (c <=? 13) || (28 <=? c) && (c <=? 32)
   || (c =? 133) || (c =? 160) || (c =? 5760)
   || (8192 <=? c) && (c <=? 8202)
   || (c =? 8232) || (c =? 8233) || (c =? 8239) || (c =? 8287)
   || (c =? 12288))%N.

Fixpoint lstrip (s : str) : str :=
  match s with
  | [] => []
  | c :: r => if isspace c then lstrip r else s
  end.

Definition rstrip (s : str) : str := reverse (lstrip (reverse s)).

(** [s.strip()] *)
Definition strip (s : str) : str := rstrip (lstrip s).

(** [s.split("\n")[0]]: everything before the first line feed. *)
Fixpoint first_line (s : str) : str :=
  match s with
  | [] => []
  | c :: r => if (c =? 10)%N then [] else c :: first_line r
  end.

(** [s[:n]] for [n >= 0]. *)
Definition slice_to (n : nat) (s : str) : str := take n s.

Fixpoint digits (d : Decimal.uint) : str :=
  match d with
  | Decimal.Nil => []
  | Decimal.D0 r => 48%N :: digits r
  | Decimal.D1 r => 49%N :: digits r
  | Decimal.D2 r => 50%N :: digits r
  | Decimal.D3 r => 51%N :: digits r
  | Decimal.D4 r => 52%N :: digits r
  | Decimal.D5 r => 53%N :: digits r
  | Decimal.D6 r => 54%N :: digits r
  | Decimal.D7 r => 55%N :: digits r
  | Decimal.D8 r => 56%N :: digits r
  | Decimal.D9 r => 57%N :: digits r
  end.

(** [str(n)] / [f"{n}"] for a natural number. *)
Definition of_nat (n : nat) : str := digits (Nat.to_uint n).

(** [f"{x}"] where [x] came from [.get(key)]: an absent key prints as
    [None]. *)
Definition format_opt (x : option str) : str :=
  match x with
  | Some s => s
  | None => lit "None"
  end.

(** [t in s] for strings, as a proposition. *)
Definition contains (s t : str) : Prop :=
  ∃ before after : str, s = before ++ t ++ after.

(** [xs[i]] addressing on a list of length [len]: Python counts a
    negative index from the end and raises [IndexError] out of range. *)
Definition index (len : nat) (i : Z) : option nat :=
  if 0 <=? i then
    if i <? Z.of_nat len then Some (Z.to_nat i) else None
  else
    if 0 <=? i + Z.of_nat len then Some (Z.to_nat (i + Z.of_nat len))
    else None.

End Py.

(** ** Data model *)

(** A message dict [{"role": ..., "content": ...}]. *)
Record turn := Turn {
  role : option Py.str;
  content : option Py.str
}.

(** A conversation dict [{"messages": [...]}]. *)
Record conversation := Conversation {
  messages : option (list turn)
}.

(** An entry of [users.json]. *)
Record user := User {
  username : option Py.str;
  password_hash : option Py.str;
  user_role : option Py.str;
  conversations : option (list conversation)
}.

(** The Flask session of the client that makes the request. *)
Record session := Session {
  session_username : option Py.str;
  session_role : option Py.str;
  current_conversation : option Z
}.

(** What a request handler reads and writes: the parsed content of
    [USERS_FILE], the global [conversation_history], and the session. *)
Record state := State {
  users_file : list user;
  conversation_history : list turn;
  sess : session
}.

#[global] Instance turn_eq_dec : EqDecision turn.
Proof. solve_decision. Defined.
#[global] Instance conversation_eq_dec : EqDecision conversation.
Proof. solve_decision. Defined.

(** One entry of the listing: [{"id": idx, "title": title}]. *)
Record summary := Summary {
  id : nat;
  title : Py.str
}.

(** The JSON bodies the handlers build with [jsonify]. *)
Inductive body :=
| ErrorJson (error : Py.str)
| MessageJson (message : Py.str)
| MessagesJson (msgs : list turn)
| IdJson (new_index : Z)
| ConversationsJson (summaries : list summary)
| StatusJson (status : Py.str).

Inductive exception := IndexError.

(** A handler returns [jsonify(body), status], or lets an exception
    escape. *)
Inductive outcome :=
| Response (b : body) (status : Z)
| Raised (e : exception).

(** *** The chat request and the completion service *)

Record attachment := Attachment {
  att_name : option Py.str
}.

(** [{message, attachments?, model?}] as [request.get_json] returns it. *)
Record chat_request := ChatRequest {
  req_message : option Py.str;
  req_attachments : option (list attachment);
  req_model : option Py.str
}.

(** [{"model": ..., "messages": ..., "stream": False}] *)
Record payload := Payload {
  model : Py.str;
  payload_messages : list turn;
  stream : bool
}.

(** The part of a completion reply that [chat] reads:
    [{"message": ..., "choices": [{"message": {"content": ...}}]}]. *)
Record choice_message := ChoiceMessage { msg_content : option Py.str }.
Record choice := Choice { choice_message_of : option choice_message }.
Record reply := Reply {
  reply_message : option Py.str;
  reply_choices : option (list choice)
}.

(** [requests.post] followed by [raise_for_status()] and [.json()]: an
    exception, kept as the text [str(e)], or the decoded body. *)
Inductive http_result :=
| HttpFailure (e : Py.str)
| HttpJson (data : reply).

(** What lies outside the process for one [chat] call. *)
Record environment := Environment {
  OLLAMA_MODEL : Py.str;
  post_completions : payload → http_result;   (* /v1/chat/completions *)
  post_legacy : payload → http_result         (* /api/chat *)
}.

(** ** Helper functions for user management *)

(** [load_users] and [save_users] read and write the whole list; the file
    content is the [users_file] component of the state: the value last
    handed to [json.dump]. Reading it back as written is exact as long as
    no string on file holds a surrogate pair; what [json.load] returns in
    general is [reopened], below. *)
Definition load_users (st : state) : list user := users_file st.

Definition save_users (users : list user) (st : state) : state :=
  {| users_file := users;
     conversation_history := conversation_history st;
     sess := sess st |}.

Fixpoint find_user (users : list user) (name : Py.str) : option user :=
  match users with
  | [] => None
  | u :: rest =>
    if bool_decide (username u = Some name) then Some u
    else find_user rest name
  end.

Definition get_user (st : state) (name : Py.str) : option user :=
  find_user (load_users st) name.

(** The list [update_user] saves: the first entry with the same username
    replaced, or the record appended when there is none. *)
Fixpoint replace_user (users : list user) (updated_user : user) : list user :=
  match users with
  | [] => [updated_user]
  | u :: rest =>
    if bool_decide (username u = username updated_user)
    then updated_user :: rest
    else u :: replace_user rest updated_user
  end.

Definition update_user (updated_user : user) (st : state) : state :=
  save_users (replace_user (load_users st) updated_user) st.

(** ** State updates *)

Definition set_history (h : list turn) (st : state) : state :=
  {| users_file := users_file st; conversation_history := h; sess := sess st |}.

Definition set_current (i : Z) (st : state) : state :=
  {| users_file := users_file st;
     conversation_history := conversation_history st;
     sess := {| session_username := session_username (sess st);
                session_role := session_role (sess st);
                current_conversation := Some i |} |}.

Definition set_conversations (cs : list conversation) (u : user) : user :=
  {| username := username u; password_hash := password_hash u;
     user_role := user_role u; conversations := Some cs |}.

(** [session.get("username")] used as a condition: a present, non-empty
    name. *)
Definition logged_in (s : session) : option Py.str :=
  match session_username s with
  | Some name => if Py.falsy name then None else Some name
  | None => None
  end.

Definition empty_conversation : conversation := {| messages := Some [] |}.

(** ** Conversation management routes *)

Definition not_authenticated : outcome :=
  Response (ErrorJson (Py.lit "No autenticado")) 401.

Definition user_not_found : outcome :=
  Response (ErrorJson (Py.lit "Usuario no encontrado")) 404.

(** The inner loop of [api_conversations]: the title is overwritten at the
    first message whose role is ["user"], and the loop stops there. *)
Fixpoint title_loop (title : Py.str) (msgs : list turn) : Py.str :=
  match msgs with
  | [] => title
  | msg :: rest =>
    if bool_decide (role msg = Some (Py.lit "user")) then
      Py.slice_to 50 (Py.first_line (default [] (content msg)))
    else title_loop title rest
  end.

Definition position_title (idx : nat) : Py.str :=
  Py.lit "Conversación " ++ Py.of_nat (idx + 1).

Definition summary_of (idx : nat) (convo : conversation) : summary :=
  let title := title_loop (Py.lit "Nueva conversación")
                          (default [] (messages convo)) in
  {| id := idx; title := Py.or_else title (position_title idx) |}.

(** The outer loop, [for idx, convo in enumerate(conversations)], from
    position [idx] on. *)
Fixpoint summaries_from (idx : nat) (convs : list conversation) : list summary :=
  match convs with
  | [] => []
  | convo :: rest => summary_of idx convo :: summaries_from (S idx) rest
  end.

Definition api_conversations (st : state) : outcome :=
  match logged_in (sess st) with
  | None => not_authenticated
  | Some name =>
    match get_user st name with
    | None => user_not_found
    | Some user =>
      Response
        (ConversationsJson (summaries_from 0 (default [] (conversations user))))
        200
    end
  end.

Definition api_get_conversation (index : Z) (st : state) : outcome * state :=
  match logged_in (sess st) with
  | None => (not_authenticated, st)
  | Some name =>
    match get_user st name with
    | None => (user_not_found, st)
    | Some user =>
      let conversations := default [] (conversations user) in
      if (index <? 0) || (index >=? Z.of_nat (length conversations)) then
        (Response (ErrorJson (Py.lit "Índice de conversación inválido")) 404,
         st)
      else
        match conversations !! Z.to_nat index with
        | None => (Raised IndexError, st)
        | Some convo =>
          let messages := default [] (messages convo) in
          (Response (MessagesJson messages) 200,
           set_current index (set_history ([] ++ messages) st))
        end
    end
  end.

Definition api_new_chat (st : state) : outcome * state :=
  match logged_in (sess st) with
  | None => (not_authenticated, st)
  | Some name =>
    match get_user st name with
    | None => (user_not_found, st)
    | Some user =>
      let conversations := default [] (conversations user) ++ [empty_conversation] in
      let user := set_conversations conversations user in
      let new_index := Z.of_nat (length conversations) - 1 in
      (Response (IdJson new_index) 200,
       set_current new_index (set_history [] (update_user user st)))
    end
  end.

Definition reset_history (st : state) : outcome * state :=
  (Response (StatusJson (Py.lit "reset")) 200, set_history [] st).

(** ** The chat route *)

Definition system_turn : turn :=
  {| role := Some (Py.lit "system");
     content := Some (Py.lit "Eres un asistente servicial. Responde siempre en el idioma que utilice el usuario y no incluyas traducciones a otros idiomas a menos que el usuario lo solicite explícitamente.") |}.

Definition user_turn (c : Py.str) : turn :=
  {| role := Some (Py.lit "user"); content := Some c |}.

Definition assistant_turn (c : Py.str) : turn :=
  {| role := Some (Py.lit "assistant"); content := Some c |}.

(** [content = user_message], then one reference line per attachment. *)
Definition attachment_line (att : attachment) : Py.str :=
  [10%N] ++ Py.lit "[adjunto: " ++ Py.format_opt (att_name att) ++ Py.lit "]".

Definition request_content (req : chat_request) : Py.str :=
  let user_message := Py.strip (default [] (req_message req)) in
  let attachments := default [] (req_attachments req) in
  fold_left (λ content att, content ++ attachment_line att)
            attachments user_message.

(** The result of one of the two [try] blocks: the assistant text, or the
    text of the exception that left the block. *)
Inductive attempt :=
| Returned (text : Py.str)
| Failed (error : Py.str).

(** [data["choices"][0]["message"]["content"]] after the primary call. *)
Definition primary_attempt (env : environment) (p : payload) : attempt :=
  match post_completions env p with
  | HttpFailure e => Failed e
  | HttpJson data =>
    match reply_choices data with
    | None => Failed (Py.lit "'choices'")
    | Some [] => Failed (Py.lit "list index out of range")
    | Some (c :: _) =>
      match choice_message_of c with
      | None => Failed (Py.lit "'message'")
      | Some m =>
        match msg_content m with
        | None => Failed (Py.lit "'content'")
        | Some text => Returned text
        end
      end
    end
  end.

(** [data.get("message") or
     data.get("choices", [{}])[0].get("message", {}).get("content", "")],
    then the placeholder when that is empty. *)
Definition legacy_attempt (env : environment) (p : payload) : attempt :=
  match post_legacy env p with
  | HttpFailure e => Failed e
  | HttpJson data =>
    let from_choices : attempt :=
      match default [ {| choice_message_of := None |} ] (reply_choices data) with
      | [] => Failed (Py.lit "list index out of range")
      | c :: _ =>
        Returned
          (default [] (msg_content
             (default {| msg_content := None |} (choice_message_of c))))
      end in
    let picked : attempt :=
      match reply_message data with
      | Some m => if Py.falsy m then from_choices else Returned m
      | None => from_choices
      end in
    match picked with
    | Returned text =>
      Returned (Py.or_else text
                  (Py.lit "No se recibió contenido del servicio LLM."))
    | Failed e => Failed e
    end
  end.

Definition both_failed_text (e first_error : Py.str) : Py.str :=
  Py.lit "Error contacting LLM service: " ++ e ++ [10%N]
  ++ Py.lit "(initial error: " ++ first_error ++ Py.lit ")".

(** The value of [assistant_content] after the nested [try] blocks. *)
Definition complete (env : environment) (p : payload) : Py.str :=
  match primary_attempt env p with
  | Returned text => text
  | Failed first_error =>
    match legacy_attempt env p with
    | Returned text => text
    | Failed e => both_failed_text e first_error
    end
  end.

(** [while len(conversations) <= conv_idx: conversations.append(...)],
    at most [fuel] iterations. *)
Fixpoint pad_loop (fuel : nat) (conversations : list conversation)
    (conv_idx : Z) : list conversation :=
  match fuel with
  | O => conversations
  | S fuel' =>
    if Z.of_nat (length conversations) <=? conv_idx then
      pad_loop fuel' (conversations ++ [empty_conversation]) conv_idx
    else conversations
  end.

(** The loop runs at most [conv_idx + 1] times. *)
Definition pad (conversations : list conversation) (conv_idx : Z)
    : list conversation :=
  pad_loop (Z.to_nat (conv_idx + 1)) conversations conv_idx.

(** [convo["messages"] = h] *)
Definition set_messages (h : list turn) (convo : conversation) : conversation :=
  {| messages := Some h |}.

(** The persistence block of [chat], entered with the user record found. *)
Definition persist (user : user) (st : state) : option state :=
  let '(conv_idx, user, st) :=
    match current_conversation (sess st) with
    | None =>
      let conv_idx := Z.of_nat (length (default [] (conversations user))) in
      (conv_idx,
       set_conversations
         (default [] (conversations user) ++ [empty_conversation]) user,
       set_current conv_idx st)
    | Some conv_idx => (conv_idx, user, st)
    end in
  let conversations := pad (default [] (conversations user)) conv_idx in
  match Py.index (length conversations) conv_idx with
  | None => None
  | Some k =>
    let conversations :=
      alter (set_messages (conversation_history st)) k conversations in
    Some (update_user (set_conversations conversations user) st)
  end.

(** [conversation_history] once the system message has been injected:
    only an empty history is primed. *)
Definition prime (history : list turn) : list turn :=
  match history with
  | [] => history ++ [system_turn]
  | _ :: _ => history
  end.

(** The payload posted to the completion service: the history with the
    user's message appended. *)
Definition chat_payload (env : environment) (req : chat_request)
    (st : state) : payload :=
  let selected_model := default (OLLAMA_MODEL env) (req_model req) in
  {| model := selected_model;
     payload_messages :=
       prime (conversation_history st) ++ [user_turn (request_content req)];
     stream := false |}.

Definition assistant_content (env : environment) (req : chat_request)
    (st : state) : Py.str :=
  complete env (chat_payload env req st).

(** [conversation_history] after the assistant's response is appended. *)
Definition answered (env : environment) (req : chat_request)
    (st : state) : list turn :=
  payload_messages (chat_payload env req st)
  ++ [assistant_turn (assistant_content env req st)].

(** A user record that [get_user] returned holds a ["username"] key, so
    [if user:] is true for it. *)
Definition chat (env : environment) (req : chat_request) (st : state)
    : outcome * state :=
  if Py.falsy (request_content req) then
    (Response (ErrorJson (Py.lit "Message is empty")) 400, st)
  else
    let ok := Response (MessageJson (assistant_content env req st)) 200 in
    let st := set_history (answered env req st) st in
    match logged_in (sess st) with
    | None => (ok, st)
    | Some name =>
      match get_user st name with
      | None => (ok, st)
      | Some user =>
        match persist user st with
        | Some st' => (ok, st')
        | None => (Raised IndexError, st)
        end
      end
    end.

(** A run of chat requests, each with the service behaviour it met. *)
Fixpoint chats (calls : list (environment * chat_request)) (st : state)
    : state :=
  match calls with
  | [] => st
  | (env, req) :: rest => chats rest (snd (chat env req st))
  end.

(** ** Views of the state used in the statements *)

(** The session's pointer is unset or a non-negative position. *)
Definition pointer_ok (st : state) : Prop :=
  ∀ i, current_conversation (sess st) = Some i → 0 ≤ i.

(** The conversations stored for [name]. *)
Definition stored_conversations (st : state) (name : Py.str)
    : list conversation :=
  match get_user st name with
  | Some user => default [] (conversations user)
  | None => []
  end.

(** The messages stored for [name] at position [i]. *)
Definition stored_messages (st : state) (name : Py.str) (i : Z)
    : option (list turn) :=
  if 0 <=? i then
    match stored_conversations st name !! Z.to_nat i with
    | Some convo => Some (default [] (messages convo))
    | None => None
    end
  else None.

(** The messages stored for the conversation the session points to; none
    while the pointer is unset. *)
Definition persisted_conversation (st : state) : list turn :=
  match logged_in (sess st), current_conversation (sess st) with
  | Some name, Some i => default [] (stored_messages st name i)
  | _, _ => []
  end.

(** One user turn and the assistant turn that answers it. *)
Definition exchange (c r : Py.str) : list turn :=
  [user_turn c; assistant_turn r].

(** What [conversations[k]["messages"] = h] leaves in a list first padded
    up to position [k]. *)
Definition write_back (h : list turn) (k : nat) (cs : list conversation)
    : list conversation :=
  <[k := {| messages := Some h |}]>
    (cs ++ replicate (S k - length cs) empty_conversation).

(** The position [chat] writes to: the session's pointer, or a new last
    position when the pointer is unset. *)
Definition conv_index (user : user) (st : state) : Z :=
  match current_conversation (sess st) with
  | None => Z.of_nat (length (default [] (conversations user)))
  | Some i => i
  end.

(** The state [chat] leaves behind once the write-back has succeeded. *)
Definition saved (h : list turn) (user : user) (st : state) : state :=
  let i := conv_index user st in
  update_user
    (set_conversations
       (write_back h (Z.to_nat i) (default [] (conversations user))) user)
    (set_current i (set_history h st)).

(** The stored conversation the session points to is the in-memory
    history. *)
Definition synced (st : state) (name : Py.str) : Prop :=
  logged_in (sess st) = Some name ∧ pointer_ok st ∧
  ∃ u i, get_user st name = Some u ∧
         current_conversation (sess st) = Some i ∧
         stored_messages st name i = Some (conversation_history st).

Definition contents_of (calls : list (environment * chat_request))
    : list Py.str :=
  (λ call, request_content call.2) <$> calls.

(** The first message of the list whose role is ["user"]. *)
Definition first_user_turn (msgs : list turn) : option turn :=
  head (filter (λ msg, role msg = Some (Py.lit "user")) msgs).

(** ** Sample data *)

Definition alice : user :=
  {| username := Some (Py.lit "alice");
     password_hash := Some (Py.lit "pbkdf2:sha256:260000$salt$hash");
     user_role := Some (Py.lit "user");
     conversations := Some [] |}.

Definition alice_session (pointer : option Z) : session :=
  {| session_username := Some (Py.lit "alice");
     session_role := Some (Py.lit "user");
     current_conversation := pointer |}.

Definition anonymous : session :=
  {| session_username := None; session_role := None;
     current_conversation := None |}.

(** Right after login: no conversation selected, nothing in memory. *)
Definition after_login : state :=
  {| users_file := [alice]; conversation_history := [];
     sess := alice_session None |}.

(** A service that answers on the primary endpoint. *)
Definition service_up : environment :=
  {| OLLAMA_MODEL := Py.lit "gpt-oss-20b";
     post_completions := λ _,
       HttpJson {| reply_message := None;
                   reply_choices :=
                     Some [ {| choice_message_of :=
                                 Some {| msg_content := Some (Py.lit "Hi!") |} |} ] |};
     post_legacy := λ _, HttpFailure (Py.lit "404 Client Error") |}.

(** A service that is unreachable on both endpoints. *)
Definition service_down : environment :=
  {| OLLAMA_MODEL := Py.lit "gpt-oss-20b";
     post_completions := λ _, HttpFailure (Py.lit "Connection refused");
     post_legacy := λ _, HttpFailure (Py.lit "Read timed out") |}.

Definition hello : chat_request :=
  {| req_message := Some (Py.lit " Hello ");
     req_attachments := None; req_model := None |}.

Definition attachment_only : chat_request :=
  {| req_message := Some (Py.lit "   ");
     req_attachments := Some [ {| att_name := Some (Py.lit "notes.txt") |} ];
     req_model := None |}.

Definition blank_first_line : state :=
  {| users_file :=
       [set_conversations
          [ {| messages := Some [user_turn ([10%N] ++ Py.lit "second line")] |} ]
          alice];
     conversation_history := [];
     sess := alice_session None |}.

Definition hello_world : state :=
  {| users_file :=
       [set_conversations
          [ {| messages :=
                 Some [user_turn (Py.lit "Hello" ++ [10%N] ++ Py.lit "world")] |} ]
          alice];
     conversation_history := [];
     sess := alice_session None |}.

(** ** Authentication and user management routes *)

Inductive method := GET | POST.

(** [request.form], read with [.get(key, "")]. *)
Record form := Form {
  form_username : option Py.str;
  form_password : option Py.str;
  form_confirm : option Py.str
}.

(** [werkzeug.security] as one request meets it: the hash it generates
    (salted, so it is an input of the call) and its check. *)
Record werkzeug := Werkzeug {
  generate_password_hash : Py.str → Py.str;
  check_password_hash : Py.str → Py.str → bool
}.

(** What the page routes return: a redirect to an endpoint, or a rendered
    template with its [error] argument and the status. *)
Inductive view :=
| RedirectTo (endpoint : Py.str)
| Template (name : Py.str) (error : option Py.str) (status : Z)
| AdminTemplate (users : list user).

Definition set_session (s : session) (st : state) : state :=
  {| users_file := users_file st;
     conversation_history := conversation_history st;
     sess := s |}.

(** [session.clear()] *)
Definition cleared : session :=
  {| session_username := None; session_role := None;
     current_conversation := None |}.

Definition index (st : state) : view :=
  match logged_in (sess st) with
  | None => RedirectTo (Py.lit "login")
  | Some _ => Template (Py.lit "index.html") None 200
  end.

Definition login (w : werkzeug) (m : method) (f : form) (st : state)
    : view * state :=
  match m with
  | POST =>
    let username := Py.strip (default [] (form_username f)) in
    let password := default [] (form_password f) in
    let invalid :=
      (Template (Py.lit "login.html")
                (Some (Py.lit "Credenciales incorrectas")) 401, st) in
    match get_user st username with
    | Some user =>
      if check_password_hash w (default [] (password_hash user)) password
      then
        (RedirectTo (Py.lit "index"),
         set_session
           {| session_username := Some username;
              session_role := Some (default (Py.lit "user") (user_role user));
              current_conversation := None |} st)
      else invalid
    | None => invalid
    end
  | GET => (Template (Py.lit "login.html") None 200, st)
  end.

Definition register (w : werkzeug) (m : method) (f : form) (st : state)
    : view * state :=
  match m with
  | POST =>
    let username := Py.strip (default [] (form_username f)) in
    let password := default [] (form_password f) in
    let confirm := default [] (form_confirm f) in
    if Py.falsy username || Py.falsy password then
      (Template (Py.lit "register.html")
                (Some (Py.lit "Usuario y contraseña son obligatorios")) 200,
       st)
    else if bool_decide (password ≠ confirm) then
      (Template (Py.lit "register.html")
                (Some (Py.lit "Las contraseñas no coinciden")) 200, st)
    else
      match get_user st username with
      | Some _ =>
        (Template (Py.lit "register.html")
                  (Some (Py.lit "El usuario ya existe")) 200, st)
      | None =>
        let new_user :=
          {| username := Some username;
             password_hash := Some (generate_password_hash w password);
             user_role := Some (Py.lit "user");
             conversations := Some [] |} in
        (RedirectTo (Py.lit "login"),
         save_users (load_users st ++ [new_user]) st)
      end
  | GET => (Template (Py.lit "register.html") None 200, st)
  end.

Definition logout (st : state) : view * state :=
  (RedirectTo (Py.lit "login"), set_session cleared st).

Definition admin_panel (st : state) : view :=
  if bool_decide (session_role (sess st) ≠ Some (Py.lit "admin")) then
    RedirectTo (Py.lit "index")
  else AdminTemplate (load_users st).

Definition delete_user (name : Py.str) (st : state) : view * state :=
  if bool_decide (session_role (sess st) ≠ Some (Py.lit "admin")) then
    (RedirectTo (Py.lit "index"), st)
  else
    let users := filter (λ u, username u ≠ Some name) (load_users st) in
    let st := save_users users st in
    let st :=
      if bool_decide (session_username (sess st) = Some name)
      then set_session cleared st else st in
    (RedirectTo (Py.lit "admin_panel"), st).

(** [ensure_admin_user], run once before the server starts. *)
Definition ensure_admin_user (w : werkzeug) (st : state) : state :=
  match load_users st with
  | [] =>
    save_users
      [ {| username := Some (Py.lit "admin");
           password_hash := Some (generate_password_hash w (Py.lit "admin"));
           user_role := Some (Py.lit "admin");
           conversations := Some [] |} ] st
  | _ :: _ => st
  end.

(** ** The models route *)

(** An entry of the ['data'] list: [{"id": ..., "name": ...}]. *)
Record model_entry := ModelEntry {
  entry_id : option Py.str;
  entry_name : option Py.str
}.

(** The decoded body of a models reply: a dict, with or without a
    ['data'] key, or a bare array. *)
Inductive models_data :=
| ModelsObject (data : option (list model_entry))
| ModelsArray (items : list Py.str).

(** [requests.get], [raise_for_status()] and [.json()]. *)
Inductive models_result :=
| ModelsFailure (e : Py.str)
| ModelsReply (data : models_data).

Record models_service := ModelsService {
  get_v1_models : models_result;   (* /v1/models *)
  get_models : models_result       (* /models *)
}.

(** The value put under ["models"]: the list the loop built, or the body
    itself ([models = data]). *)
Inductive models_value :=
| Listed (ids : list Py.str)
| Verbatim (data : models_data).

Inductive models_response :=
| ModelsOk (models : models_value)                (* 200 *)
| ModelsError (error : Py.str) (status : Z).

(** [m.get('id') or m.get('name')], kept when it is not empty. *)
Definition model_id (m : model_entry) : option Py.str :=
  let picked :=
    match entry_id m with
    | Some i => if Py.falsy i then entry_name m else Some i
    | None => entry_name m
    end in
  match picked with
  | Some i => if Py.falsy i then None else Some i
  | None => None
  end.

(** The body of either [try] block once the reply is decoded. *)
Definition collect_models (data : models_data) : models_value :=
  match data with
  | ModelsObject (Some entries) => Listed (omap model_id entries)
  | _ => Verbatim data
  end.

Definition list_models (svc : models_service) : models_response :=
  match get_v1_models svc with
  | ModelsReply data => ModelsOk (collect_models data)
  | ModelsFailure _ =>
    match get_models svc with
    | ModelsReply data => ModelsOk (collect_models data)
    | ModelsFailure e =>
      ModelsError (Py.lit "Error fetching models: " ++ e) 500
    end
  end.

(** ** Several clients *)

(** The process state shared by all clients, and each client's session
    cookie. *)
Record world := World {
  world_users : list user;
  world_history : list turn;
  cookies : nat → session
}.

Inductive request :=
| Index
| Login (w : werkzeug) (m : method) (f : form)
| Register (w : werkzeug) (m : method) (f : form)
| Logout
| AdminPanel
| DeleteUser (name : Py.str)
| ListConversations
| GetConversation (index : Z)
| NewChat
| ResetHistory
| Chat (env : environment) (req : chat_request).

Inductive answer :=
| Page (v : view)
| Api (o : outcome).

(** The route a request is dispatched to. *)
Definition handle (r : request) (st : state) : answer * state :=
  match r with
  | Index => (Page (index st), st)
  | Login w m f => let '(v, st') := login w m f st in (Page v, st')
  | Register w m f => let '(v, st') := register w m f st in (Page v, st')
  | Logout => let '(v, st') := logout st in (Page v, st')
  | AdminPanel => (Page (admin_panel st), st)
  | DeleteUser name => let '(v, st') := delete_user name st in (Page v, st')
  | ListConversations => (Api (api_conversations st), st)
  | GetConversation i => let '(o, st') := api_get_conversation i st in (Api o, st')
  | NewChat => let '(o, st') := api_new_chat st in (Api o, st')
  | ResetHistory => let '(o, st') := reset_history st in (Api o, st')
  | Chat env req => let '(o, st') := chat env req st in (Api o, st')
  end.

(** The state client [k]'s request runs in. *)
Definition view_of (k : nat) (w : world) : state :=
  {| users_file := world_users w;
     conversation_history := world_history w;
     sess := cookies w k |}.

(** Client [k]'s request: the handler runs on the shared state with that
    client's cookie, and the cookie is sent back. *)
Definition serve (k : nat) (r : request) (w : world) : answer * world :=
  let '(out, st) := handle r (view_of k w) in
  (out,
   {| world_users := users_file st;
      world_history := conversation_history st;
      cookies := λ j, if bool_decide (j = k) then sess st else cookies w j |}).

Fixpoint serve_all (trace : list (nat * request)) (w : world)
    : list answer * world :=
  match trace with
  | [] => ([], w)
  | (k, r) :: rest =>
    let '(out, w') := serve k r w in
    let '(outs, w'') := serve_all rest w' in
    (out :: outs, w'')
  end.

(** ** The users file on disk *)

Definition high_surrogate (c : N) : bool :=
  ((55296 <=? c) && (c <=? 56319))%N.          (* 0xD800 .. 0xDBFF *)

Definition low_surrogate (c : N) : bool :=
  ((56320 <=? c) && (c <=? 57343))%N.          (* 0xDC00 .. 0xDFFF *)

(** [json.loads(json.dumps(s))] on a string. [json.dump] writes every
    code point outside ASCII as a [\uXXXX] escape, one escape for a code
    point below 0x10000 (a surrogate included) and the two escapes of its
    surrogate pair above; [json.load] joins an escaped high surrogate
    with the escaped low surrogate that follows it into
    [0x10000 + (((uni - 0xd800) << 10) | (uni2 - 0xdc00))]. So a high
    surrogate directly followed by a low one comes back as one code
    point, and everything else comes back as it was. *)
Fixpoint json_reload (s : Py.str) : Py.str :=
  match s with
  | [] => []
  | c :: r =>
    match r with
    | c2 :: r2 =>
      if high_surrogate c && low_surrogate c2 then
        (65536 + N.lor (N.shiftl (c - 55296) 10) (c2 - 56320))%N
          :: json_reload r2
      else c :: json_reload r
    | [] => c :: json_reload r
    end
  end.


Definition reload_turn (t : turn) : turn :=
  {| role := json_reload <$> role t; content := json_reload <$> content t |}.

Definition reload_conversation (c : conversation) : conversation :=
  {| messages := fmap (M:=list) reload_turn <$> messages c |}.

Definition reload_user (u : user) : user :=
  {| username := json_reload <$> username u;
     password_hash := json_reload <$> password_hash u;
     user_role := json_reload <$> user_role u;
     conversations := fmap (M:=list) reload_conversation <$> conversations u |}.

(** The state as the next request reads it: the users file holds what
    [json.load] returns for what was written. *)
Definition reopened (st : state) : state :=
  {| users_file := reload_user <$> users_file st;
     conversation_history := conversation_history st;
     sess := sess st |}.


(** ** More views of the state *)

(** The usernames on file, in order. *)
Definition usernames (st : state) : list (option Py.str) :=
  username <$> users_file st.

(** What a record holds besides its conversations. *)
Definition credentials (u : user)
    : option Py.str * option Py.str * option Py.str :=
  (username u, password_hash u, user_role u).

(** The same process state seen with another client's session. *)
Definition with_session (s : session) (st : state) : state :=
  set_session s st.

(** The record [register] appends. *)
Definition registered (w : werkzeug) (f : form) : user :=
  {| username := Some (Py.strip (default [] (form_username f)));
     password_hash :=
       Some (generate_password_hash w (default [] (form_password f)));
     user_role := Some (Py.lit "user");
     conversations := Some [] |}.

(** A hashing scheme that is its own check, for the examples. *)
Definition plain_hashing : werkzeug :=
  {| generate_password_hash := λ p, Py.lit "plain$" ++ p;
     check_password_hash := λ h p, bool_decide (h = Py.lit "plain$" ++ p) |}.

(** The server just started: nothing in memory, no client has a
    session yet. *)
Definition fresh_world (users : list user) : world :=
  {| world_users := users; world_history := [];
     cookies := λ _, cleared |}.


Definition admin_form : form :=
  {| form_username := Some (Py.lit "admin");
     form_password := Some (Py.lit "admin");
     form_confirm := None |}.

Definition bob_form : form :=
  {| form_username := Some (Py.lit " bob ");
     form_password := Some (Py.lit "s3cret");
     form_confirm := Some (Py.lit "s3cret") |}.

Definition bob : user :=
  {| username := Some (Py.lit "bob");
     password_hash := Some (Py.lit "plain$s3cret");
     user_role := Some (Py.lit "user");
     conversations := Some [] |}.

Definition root : user :=
  {| username := Some (Py.lit "root");
     password_hash := Some (Py.lit "plain$toor");
     user_role := Some (Py.lit "admin");
     conversations := Some [] |}.

Definition root_session : session :=
  {| session_username := Some (Py.lit "root");
     session_role := Some (Py.lit "admin");
     current_conversation := None |}.

(** * Properties *)

(** ** Python text, on examples *)

Example lit_ascii : Py.lit "user" = [117; 115; 101; 114]%N.
Proof. reflexivity. Qed.

Example lit_accent :
  Py.lit "ó" = [243%N].
Proof. reflexivity. Qed.

Example strip_example :
  Py.strip (Py.lit "  hi there
 ") = Py.lit "hi there".
Proof. reflexivity. Qed.

Example of_nat_example : Py.of_nat 120 = Py.lit "120".
Proof. reflexivity. Qed.

(** ** Facts about the user store *)

Section Store.

Implicit Types (users : list user) (u : user) (name : Py.str).

Lemma find_user_name users name u :
  find_user users name = Some u → username u = Some name.
Proof.
  induction users as [|v rest IH]; simpl; [done|].
  case_bool_decide; [intros [= <-]; done | exact IH].
Qed.

(** After [update_user], [get_user] reads the updated record back. *)
Lemma find_replace_user users u name :
  username u = Some name → find_user (replace_user users u) name = Some u.
Proof.
  intros Hu. induction users as [|v rest IH]; simpl.
  - rewrite bool_decide_eq_true_2; done.
  - case_bool_decide as Hv; simpl.
    + rewrite bool_decide_eq_true_2; done.
    + rewrite bool_decide_eq_false_2; [exact IH | congruence].
Qed.

(** Records of other users are left alone. *)
Lemma find_replace_user_other users u name :
  username u ≠ Some name →
  find_user (replace_user users u) name = find_user users name.
Proof.
  intros Hu. induction users as [|v rest IH]; simpl.
  - rewrite bool_decide_eq_false_2; done.
  - case_bool_decide as Hv; simpl.
    + rewrite !bool_decide_eq_false_2; congruence.
    + case_bool_decide; [done | exact IH].
Qed.

Lemma get_update_user st u name :
  username u = Some name → get_user (update_user u st) name = Some u.
Proof. intros Hu. unfold get_user, update_user. simpl. by apply find_replace_user. Qed.

Lemma get_user_name st name u :
  get_user st name = Some u → username u = Some name.
Proof. apply find_user_name. Qed.

End Store.

(** ** Facts about padding and writing back *)

Section Padding.

Implicit Types (cs : list conversation) (i : Z) (k : nat).

Lemma pad_loop_replicate fuel cs i :
  (Z.to_nat (i + 1 - Z.of_nat (length cs)) ≤ fuel)%nat →
  pad_loop fuel cs i
  = cs ++ replicate (Z.to_nat (i + 1 - Z.of_nat (length cs))) empty_conversation.
Proof.
  revert cs. induction fuel as [|fuel IH]; intros cs Hfuel; simpl.
  - replace (Z.to_nat _) with 0%nat by lia. by rewrite app_nil_r.
  - destruct (Z.leb_spec (Z.of_nat (length cs)) i) as [Hle|Hgt].
    + rewrite IH; rewrite length_app; simpl; [|lia].
      replace (Z.to_nat (i + 1 - Z.of_nat (length cs)))
        with (S (Z.to_nat (i + 1 - Z.of_nat (length cs + 1)))) by lia.
      by rewrite <- app_assoc.
    + replace (Z.to_nat _) with 0%nat by lia. by rewrite app_nil_r.
Qed.

(** The [while] loop ends, with the list grown by exactly the missing
    entries. *)
Lemma pad_replicate cs i :
  pad cs i
  = cs ++ replicate (Z.to_nat (i + 1 - Z.of_nat (length cs))) empty_conversation.
Proof. apply pad_loop_replicate. lia. Qed.

Lemma pad_length cs i : i < Z.of_nat (length (pad cs i)).
Proof. rewrite pad_replicate, length_app, length_replicate. lia. Qed.

Lemma alter_set_messages h k cs :
  alter (set_messages h) k cs = <[k := {| messages := Some h |}]> cs.
Proof.
  revert k. induction cs as [|c cs IH]; intros [|k]; simpl; try done.
  by rewrite <- IH.
Qed.

Lemma write_back_lookup h k cs :
  write_back h k cs !! k = Some {| messages := Some h |}.
Proof.
  unfold write_back. apply list_lookup_insert_eq.
  rewrite length_app, length_replicate. lia.
Qed.

Lemma write_back_length h k cs :
  length (write_back h k cs) = (length cs `max` S k)%nat.
Proof.
  unfold write_back. rewrite length_insert, length_app, length_replicate. lia.
Qed.

(** Positions other than [k] that were stored before keep their
    conversation. *)
Lemma write_back_lookup_ne h k j cs :
  j ≠ k → (j < length cs)%nat → write_back h k cs !! j = cs !! j.
Proof.
  intros Hne Hlt. unfold write_back.
  rewrite list_lookup_insert_ne by done. by rewrite lookup_app_l.
Qed.

(** Beyond the stored list: the padding, then the written entry. *)
Lemma write_back_beyond h k cs :
  (length cs ≤ k)%nat →
  write_back h k cs
  = cs ++ replicate (k - length cs) empty_conversation
       ++ [ {| messages := Some h |} ].
Proof.
  intros Hle. unfold write_back.
  replace (S k - length cs)%nat with ((k - length cs) + 1)%nat by lia.
  rewrite replicate_add. simpl.
  rewrite insert_app_r_alt by lia.
  f_equal.
  rewrite insert_app_r_alt; rewrite length_replicate; [|lia].
  replace (k - length cs - (k - length cs))%nat with 0%nat by lia.
  done.
Qed.

End Padding.

(** ** One chat request by a logged-in user *)

Section ChatStep.

Variables (env : environment) (req : chat_request).
Implicit Types (st : state) (name : Py.str) (u : user).

Lemma set_current_same st i :
  current_conversation (sess st) = Some i → set_current i st = st.
Proof. destruct st as [uf h [un r c]]; simpl; intros ->; done. Qed.

Lemma falsy_false (s : Py.str) : s ≠ [] → Py.falsy s = false.
Proof. destruct s; simpl; congruence. Qed.

Lemma conv_index_nonneg u st : pointer_ok st → 0 ≤ conv_index u st.
Proof.
  intros Hok. unfold conv_index.
  destruct (current_conversation (sess st)) as [i|] eqn:E; [by apply Hok | lia].
Qed.

Lemma persist_saved u st :
  pointer_ok st →
  persist u st = Some (saved (conversation_history st) u st).
Proof.
  intros Hok. unfold persist, saved, conv_index.
  destruct (current_conversation (sess st)) as [i|] eqn:E.
  - specialize (Hok i E).
    rewrite pad_replicate. unfold Py.index.
    rewrite length_app, length_replicate.
    destruct (Z.leb_spec 0 i); [|lia].
    destruct (Z.ltb_spec i
      (Z.of_nat (length (default [] (conversations u))
                 + Z.to_nat (i + 1 - Z.of_nat (length (default [] (conversations u)))))));
      [|lia].
    rewrite alter_set_messages. unfold write_back.
    replace (S (Z.to_nat i) - length (default [] (conversations u)))%nat
      with (Z.to_nat (i + 1 - Z.of_nat (length (default [] (conversations u)))))
      by lia.
    do 2 f_equal. rewrite set_current_same by done. by destruct st.
  - simpl. rewrite pad_replicate. unfold Py.index.
    rewrite !length_app, length_replicate. simpl.
    set (cs := default [] (conversations u)).
    destruct (Z.leb_spec 0 (Z.of_nat (length cs))); [|lia].
    destruct (Z.ltb_spec (Z.of_nat (length cs))
      (Z.of_nat (length cs + 1
         + Z.to_nat (Z.of_nat (length cs) + 1 - Z.of_nat (length cs + 1)))));
      [|lia].
    rewrite alter_set_messages. unfold write_back.
    replace (Z.to_nat (Z.of_nat (length cs) + 1 - Z.of_nat (length cs + 1)))
      with 0%nat by lia.
    replace (S (Z.to_nat (Z.of_nat (length cs))) - length cs)%nat
      with 1%nat by lia.
    simpl. rewrite app_nil_r.
    rewrite Nat2Z.id. by destruct st, u.
Qed.

(** A logged-in user with a record and a non-empty message gets the
    reply, and the whole history is written back. *)
Lemma chat_logged_in st name u :
  logged_in (sess st) = Some name →
  get_user st name = Some u →
  request_content req ≠ [] →
  pointer_ok st →
  chat env req st
  = (Response (MessageJson (assistant_content env req st)) 200,
     saved (answered env req st) u st).
Proof.
  intros Hin Hu Hc Hok. unfold chat.
  rewrite (falsy_false _ Hc). simpl. rewrite Hin.
  unfold get_user, load_users in *. simpl. rewrite Hu.
  rewrite persist_saved by exact Hok. done.
Qed.

Lemma saved_pointer h u st :
  current_conversation (sess (saved h u st)) = Some (conv_index u st).
Proof. done. Qed.

Lemma saved_pointer_ok h u st : pointer_ok st → pointer_ok (saved h u st).
Proof.
  intros Hok i. rewrite saved_pointer. intros [= <-].
  by apply conv_index_nonneg.
Qed.

Lemma saved_stored h u st name :
  username u = Some name →
  stored_conversations (saved h u st) name
  = write_back h (Z.to_nat (conv_index u st)) (default [] (conversations u)).
Proof.
  intros Hname. unfold stored_conversations, saved.
  rewrite get_update_user; done.
Qed.

(** The conversation the session points to now holds the history. *)
Lemma saved_messages h u st name :
  username u = Some name → pointer_ok st →
  stored_messages (saved h u st) name (conv_index u st) = Some h.
Proof.
  intros Hname Hok. unfold stored_messages.
  pose proof (conv_index_nonneg u st Hok).
  destruct (Z.leb_spec 0 (conv_index u st)); [|lia].
  rewrite saved_stored by done. by rewrite write_back_lookup.
Qed.

End ChatStep.

(** ** Runs of chat requests *)

Section Runs.

Implicit Types (st : state) (name : Py.str) (u : user)
  (calls : list (environment * chat_request)).

Lemma synced_persisted st name :
  synced st name → persisted_conversation st = conversation_history st.
Proof.
  intros (Hin & _ & u & i & _ & Hi & Hm).
  unfold persisted_conversation. by rewrite Hin, Hi, Hm.
Qed.

Lemma chat_synced env req st name u :
  logged_in (sess st) = Some name →
  get_user st name = Some u →
  request_content req ≠ [] →
  pointer_ok st →
  synced (chat env req st).2 name ∧
  conversation_history (chat env req st).2 = answered env req st.
Proof.
  intros Hin Hu Hc Hok.
  rewrite (chat_logged_in env req st name u) by done. simpl.
  pose proof (get_user_name _ _ _ Hu) as Hname.
  split; [|done]. split; [done|]. split; [by apply saved_pointer_ok|].
  eexists _, (conv_index u st). split; [|split].
  - unfold saved. apply get_update_user. exact Hname.
  - done.
  - by apply saved_messages.
Qed.

Lemma exchanges_length (cs rs : list Py.str) :
  length rs = length cs →
  length (concat (zip_with exchange cs rs)) = (2 * length cs)%nat.
Proof.
  revert rs. induction cs as [|c cs IH]; intros [|r rs]; simpl; try done.
  intros [= Hlen]. rewrite (IH rs Hlen). lia.
Qed.

(** From a non-empty history on, every request appends one user turn
    and one assistant turn, and the stored conversation follows. *)
Lemma chats_synced calls : ∀ st name,
  synced st name →
  conversation_history st ≠ [] →
  Forall (λ call, request_content call.2 ≠ []) calls →
  synced (chats calls st) name ∧
  ∃ replies,
    length replies = length calls ∧
    conversation_history (chats calls st)
    = conversation_history st
      ++ concat (zip_with exchange (contents_of calls) replies).
Proof.
  induction calls as [|[env req] rest IH]; intros st name Hs Hne Hall.
  - split; [done|]. exists []. split; [done|]. simpl. by rewrite app_nil_r.
  - apply Forall_cons_1 in Hall as [Hc Hall]. simpl in Hc.
    destruct Hs as (Hin & Hok & u & i & Hu & Hi & Hm).
    destruct (chat_synced env req st name u Hin Hu Hc Hok) as [Hs' Hh'].
    simpl.
    destruct (IH (chat env req st).2 name Hs') as (Hs'' & replies & Hlen & Hh'');
      [|exact Hall|].
    { rewrite Hh'. unfold answered. by destruct (payload_messages _). }
    split; [exact Hs''|].
    exists (assistant_content env req st :: replies).
    split; [simpl; by rewrite Hlen|].
    rewrite Hh'', Hh'. unfold answered, chat_payload. simpl.
    destruct (conversation_history st) as [|t h]; [done|]. simpl.
    by rewrite <- !app_assoc.
Qed.

End Runs.

(** ** Specified properties *)

(** C1. For every sequence of N user turns sent through the chat operation
    into a single conversation starting from an empty working transcript,
    the persisted conversation holds [2N + 1] messages when [N > 0] and
    none when [N = 0]: one system turn, then for each user turn that turn
    followed by exactly one assistant turn. The user is logged in and has
    a record, every request has a non-empty content, and the conversation
    the session points to starts empty. *)
Theorem chat_message_count
    (calls : list (environment * chat_request)) (st : state)
    (name : Py.str) (u : user) :
  logged_in (sess st) = Some name →
  get_user st name = Some u →
  pointer_ok st →
  conversation_history st = [] →
  persisted_conversation st = [] →
  Forall (λ call, request_content call.2 ≠ []) calls →
  length (persisted_conversation (chats calls st))
  = (if (length calls =? 0)%nat then 0 else 2 * length calls + 1)%nat
  ∧ (calls ≠ [] →
     ∃ replies,
       length replies = length calls ∧
       persisted_conversation (chats calls st)
       = system_turn :: concat (zip_with exchange (contents_of calls) replies)).
Proof.
  intros Hin Hu Hok Hempty Hfresh Hall.
  destruct calls as [|[env req] rest].
  { simpl. rewrite Hfresh. done. }
  apply Forall_cons_1 in Hall as [Hc Hall]. simpl in Hc.
  destruct (chat_synced env req st name u Hin Hu Hc Hok) as [Hs Hh].
  assert (Hh1 : conversation_history (chat env req st).2
                = system_turn :: exchange (request_content req)
                                          (assistant_content env req st)).
  { rewrite Hh. unfold answered, chat_payload. simpl. by rewrite Hempty. }
  destruct (chats_synced rest (chat env req st).2 name Hs) as (Hs' & replies & Hlen & Hh');
    [by rewrite Hh1 | exact Hall |].
  assert (Hshape : persisted_conversation (chats ((env, req) :: rest) st)
    = system_turn
      :: concat (zip_with exchange (contents_of ((env, req) :: rest))
                   (assistant_content env req st :: replies))).
  { simpl. rewrite (synced_persisted _ _ Hs'), Hh', Hh1. done. }
  split.
  - rewrite Hshape. cbn [length]. rewrite exchanges_length.
    + unfold contents_of. rewrite length_fmap. simpl. lia.
    + unfold contents_of. rewrite length_fmap. simpl. by rewrite Hlen.
  - intros _. exists (assistant_content env req st :: replies).
    split; [simpl; by rewrite Hlen | exact Hshape].
Qed.

Lemma chat_message_count_witness :
  length (persisted_conversation
            (chats [(service_down, hello); (service_up, hello)] after_login))
  = 5%nat.
Proof.
  apply (chat_message_count
           [(service_down, hello); (service_up, hello)] after_login
           (Py.lit "alice") alice).
  - reflexivity.
  - reflexivity.
  - intros i H. vm_compute in H. discriminate H.
  - reflexivity.
  - reflexivity.
  - repeat constructor; vm_compute; discriminate.
Defined.

Section ChatFacts.

Variables (env : environment) (req : chat_request).
Implicit Types (st : state) (name : Py.str) (u : user).

(** Without a session user, or without a record for it, [chat] skips the
    persistence block. *)
Lemma chat_not_persisted st :
  request_content req ≠ [] →
  (logged_in (sess st) = None
   ∨ ∃ name, logged_in (sess st) = Some name ∧ get_user st name = None) →
  chat env req st
  = (Response (MessageJson (assistant_content env req st)) 200,
     set_history (answered env req st) st).
Proof.
  intros Hc Hcase. unfold chat. rewrite (falsy_false _ Hc). simpl.
  destruct Hcase as [-> | (name & -> & Hu)]; [done|].
  unfold get_user, load_users in *. simpl. by rewrite Hu.
Qed.

Lemma both_failed_text_contains (e first_error : Py.str) :
  Py.contains (both_failed_text e first_error) e
  ∧ Py.contains (both_failed_text e first_error) first_error.
Proof.
  unfold both_failed_text, Py.contains. split.
  - by eexists _, _.
  - exists (Py.lit "Error contacting LLM service: " ++ e ++ [10%N]
            ++ Py.lit "(initial error: "), (Py.lit ")").
    by rewrite <- !app_assoc.
Qed.

Lemma complete_both_failed (p : payload) (e first_error : Py.str) :
  primary_attempt env p = Failed first_error →
  legacy_attempt env p = Failed e →
  complete env p = both_failed_text e first_error.
Proof. intros H1 H2. unfold complete. by rewrite H1, H2. Qed.

End ChatFacts.

(** C2. When both the primary completion call and the legacy fallback call
    fail, [chat] still answers with status 200; the assistant message is a
    synthesized text that contains the fallback error and the primary
    error. The working transcript becomes the old transcript (after the
    system turn, when it was empty), then the user turn, then that text
    as the assistant's turn; for a logged-in user with a record, the
    conversation persisted for the session is exactly that transcript. *)
Theorem chat_both_endpoints_fail
    (env : environment) (req : chat_request) (st : state)
    (e first_error : Py.str) :
  primary_attempt env (chat_payload env req st) = Failed first_error →
  legacy_attempt env (chat_payload env req st) = Failed e →
  request_content req ≠ [] →
  pointer_ok st →
  let text := both_failed_text e first_error in
  Py.contains text e ∧ Py.contains text first_error
  ∧ (chat env req st).1 = Response (MessageJson text) 200
  ∧ conversation_history (chat env req st).2
    = prime (conversation_history st)
      ++ [user_turn (request_content req); assistant_turn text]
  ∧ (∀ name u,
       logged_in (sess st) = Some name → get_user st name = Some u →
       persisted_conversation (chat env req st).2
       = prime (conversation_history st)
         ++ [user_turn (request_content req); assistant_turn text]).
Proof.
  intros H1 H2 Hc Hok text.
  pose proof (complete_both_failed env _ _ _ H1 H2) as Hcomplete.
  fold (assistant_content env req st) in Hcomplete.
  destruct (both_failed_text_contains e first_error) as [He Hf].
  split; [exact He|]. split; [exact Hf|].
  assert (Hnew : answered env req st
                 = prime (conversation_history st)
                   ++ [user_turn (request_content req); assistant_turn text]).
  { unfold answered. rewrite Hcomplete. unfold chat_payload. simpl.
    by rewrite <- app_assoc. }
  destruct (logged_in (sess st)) as [name|] eqn:Hin.
  - destruct (get_user st name) as [u|] eqn:Hu.
    + destruct (chat_synced env req st name u Hin Hu Hc Hok) as [Hs Hh].
      rewrite (synced_persisted _ _ Hs), Hh.
      rewrite (chat_logged_in env req st name u) by done. simpl.
      split; [by rewrite Hcomplete|]. split; [exact Hnew|].
      intros _ _ _ _. exact Hnew.
    + rewrite chat_not_persisted by eauto. simpl.
      split; [by rewrite Hcomplete|]. split; [exact Hnew|].
      intros name' u' [= <-] Hu'. congruence.
  - rewrite chat_not_persisted by eauto. simpl.
    split; [by rewrite Hcomplete|]. split; [exact Hnew|].
    intros name' u' [=].
Qed.

Lemma chat_both_endpoints_fail_witness :
  (chat service_down hello after_login).1
  = Response
      (MessageJson
         (Py.lit "Error contacting LLM service: Read timed out" ++ [10%N]
          ++ Py.lit "(initial error: Connection refused)")) 200
  ∧ conversation_history (chat service_down hello after_login).2
    = [system_turn; user_turn (Py.lit "Hello");
       assistant_turn
         (Py.lit "Error contacting LLM service: Read timed out" ++ [10%N]
          ++ Py.lit "(initial error: Connection refused)")]
  ∧ persisted_conversation (chat service_down hello after_login).2
    = [system_turn; user_turn (Py.lit "Hello");
       assistant_turn
         (Py.lit "Error contacting LLM service: Read timed out" ++ [10%N]
          ++ Py.lit "(initial error: Connection refused)")].
Proof.
  destruct (chat_both_endpoints_fail service_down hello after_login
              (Py.lit "Read timed out") (Py.lit "Connection refused"))
    as (_ & _ & Hout & Hhist & Hstored).
  - reflexivity.
  - reflexivity.
  - vm_compute. discriminate.
  - intros i H. vm_compute in H. discriminate H.
  - split; [exact Hout|]. split; [exact Hhist|].
    exact (Hstored (Py.lit "alice") alice eq_refl eq_refl).
Defined.

(** Without a logged-in session no request, accepted or not, reaches the
    users file or the session, and none is answered with 401. *)
Lemma chat_without_session_frame
    (env : environment) (req : chat_request) (st : state) :
  logged_in (sess st) = None →
  users_file (chat env req st).2 = users_file st
  ∧ sess (chat env req st).2 = sess st
  ∧ (∀ b, (chat env req st).1 ≠ Response b 401).
Proof.
  intros Hin.
  destruct (decide (request_content req = [])) as [Hc|Hne].
  - unfold chat. rewrite Hc. simpl. repeat split; try done.
  - rewrite chat_not_persisted by eauto. simpl. repeat split; try done.
Qed.

(** C8. A chat request with a non-empty content made without a logged-in
    session is not refused for lack of authentication: it is answered
    with status 200 and the assistant reply, the user turn and the
    assistant turn are appended to the working transcript (after the
    system turn, when it was empty), and nothing else changes: the users
    file and the session are left as they were. *)
Theorem chat_without_session
    (env : environment) (req : chat_request) (st : state) :
  logged_in (sess st) = None →
  request_content req ≠ [] →
  chat env req st
  = (Response (MessageJson (assistant_content env req st)) 200,
     set_history
       (prime (conversation_history st)
        ++ [user_turn (request_content req);
            assistant_turn (assistant_content env req st)]) st)
  ∧ users_file (chat env req st).2 = users_file st
  ∧ sess (chat env req st).2 = sess st
  ∧ (∀ b, (chat env req st).1 ≠ Response b 401).
Proof.
  intros Hin Hne.
  split; [|by apply chat_without_session_frame].
  rewrite chat_not_persisted by eauto.
  unfold answered, chat_payload. simpl. by rewrite <- app_assoc.
Qed.

Lemma chat_without_session_witness :
  chat service_up hello
    {| users_file := [alice]; conversation_history := [];
       sess := anonymous |}
  = (Response (MessageJson (Py.lit "Hi!")) 200,
     {| users_file := [alice];
        conversation_history :=
          [system_turn; user_turn (Py.lit "Hello");
           assistant_turn (Py.lit "Hi!")];
        sess := anonymous |}).
Proof.
  apply (chat_without_session service_up hello
           {| users_file := [alice]; conversation_history := [];
              sess := anonymous |}).
  - reflexivity.
  - vm_compute. discriminate.
Defined.

(** C9. For a logged-in user whose session pointer is at or beyond the end
    of the stored conversation list, persistence does not fail: [chat]
    answers with status 200, and the stored list becomes the old list,
    then empty conversations up to the pointer, then a conversation
    holding the full working transcript at the pointer. *)
Theorem chat_pads_up_to_pointer
    (env : environment) (req : chat_request) (st : state)
    (name : Py.str) (u : user) (i : Z) :
  logged_in (sess st) = Some name →
  get_user st name = Some u →
  request_content req ≠ [] →
  current_conversation (sess st) = Some i →
  Z.of_nat (length (default [] (conversations u))) ≤ i →
  (chat env req st).1
  = Response (MessageJson (assistant_content env req st)) 200
  ∧ conversation_history (chat env req st).2 = answered env req st
  ∧ stored_conversations (chat env req st).2 name
    = default [] (conversations u)
      ++ replicate (Z.to_nat i - length (default [] (conversations u)))
                   empty_conversation
      ++ [ {| messages := Some (answered env req st) |} ].
Proof.
  intros Hin Hu Hc Hi Hlen.
  assert (Hok : pointer_ok st).
  { intros j Hj. rewrite Hi in Hj. injection Hj as <-. lia. }
  rewrite (chat_logged_in env req st name u) by done. simpl.
  split; [done|]. split; [done|].
  rewrite saved_stored by (by eapply get_user_name).
  unfold conv_index. rewrite Hi.
  apply write_back_beyond. lia.
Qed.

Lemma chat_pads_up_to_pointer_witness :
  stored_conversations
    (chat service_up hello
       {| users_file := [alice]; conversation_history := [];
          sess := alice_session (Some 2) |}).2
    (Py.lit "alice")
  = [empty_conversation; empty_conversation;
     {| messages := Some (answered service_up hello
          {| users_file := [alice]; conversation_history := [];
             sess := alice_session (Some 2) |}) |}].
Proof.
  apply (chat_pads_up_to_pointer service_up hello
           {| users_file := [alice]; conversation_history := [];
              sess := alice_session (Some 2) |}
           (Py.lit "alice") alice 2).
  - reflexivity.
  - reflexivity.
  - vm_compute. discriminate.
  - reflexivity.
  - simpl. lia.
Defined.

Section Selecting.

Implicit Types (st : state) (name : Py.str) (u : user) (index : Z).

Lemma select_in_range st name u index convo :
  logged_in (sess st) = Some name →
  get_user st name = Some u →
  0 ≤ index →
  default [] (conversations u) !! Z.to_nat index = Some convo →
  api_get_conversation index st
  = (Response (MessagesJson (default [] (messages convo))) 200,
     set_current index (set_history (default [] (messages convo)) st)).
Proof.
  intros Hin Hu H0 Hconvo. unfold api_get_conversation.
  rewrite Hin, Hu.
  apply lookup_lt_Some in Hconvo as Hlt.
  destruct (Z.ltb_spec index 0); [lia|].
  destruct (Z.geb_spec index
              (Z.of_nat (length (default [] (conversations u))))); [lia|].
  simpl. by rewrite Hconvo.
Qed.

Lemma select_out_of_range st name u index :
  logged_in (sess st) = Some name →
  get_user st name = Some u →
  ¬ (0 ≤ index < Z.of_nat (length (default [] (conversations u)))) →
  api_get_conversation index st
  = (Response (ErrorJson (Py.lit "Índice de conversación inválido")) 404, st).
Proof.
  intros Hin Hu Hout. unfold api_get_conversation.
  rewrite Hin, Hu.
  destruct (Z.ltb_spec index 0); [done|].
  destruct (Z.geb_spec index
              (Z.of_nat (length (default [] (conversations u))))); [done|lia].
Qed.

(** [api_new_chat] for a logged-in user with a record. *)
Lemma new_chat_logged_in st name u :
  logged_in (sess st) = Some name →
  get_user st name = Some u →
  api_new_chat st
  = (Response (IdJson (Z.of_nat (length (default [] (conversations u))))) 200,
     set_current (Z.of_nat (length (default [] (conversations u))))
       (set_history []
          (update_user
             (set_conversations
                (default [] (conversations u) ++ [empty_conversation]) u)
             st))).
Proof.
  intros Hin Hu. unfold api_new_chat. rewrite Hin, Hu.
  rewrite length_app. simpl.
  replace (Z.of_nat (length (default [] (conversations u)) + 1) - 1)
    with (Z.of_nat (length (default [] (conversations u)))) by lia.
  done.
Qed.

End Selecting.

(** C3. For a logged-in user with a record and every index [i]: when
    [0 <= i < len(conversations)], select answers 200 with the stored
    messages of conversation [i], the working transcript becomes exactly
    those messages and the session pointer becomes [i]; for every other
    [i] it answers 404 and leaves the state, the working transcript
    included, as it was. *)
Theorem select_conversation
    (st : state) (name : Py.str) (u : user) (index : Z) :
  logged_in (sess st) = Some name →
  get_user st name = Some u →
  (0 ≤ index < Z.of_nat (length (default [] (conversations u))) →
   ∃ convo,
     default [] (conversations u) !! Z.to_nat index = Some convo
     ∧ (api_get_conversation index st).1
       = Response (MessagesJson (default [] (messages convo))) 200
     ∧ conversation_history (api_get_conversation index st).2
       = default [] (messages convo)
     ∧ current_conversation (sess (api_get_conversation index st).2)
       = Some index
     ∧ users_file (api_get_conversation index st).2 = users_file st)
  ∧ (¬ (0 ≤ index < Z.of_nat (length (default [] (conversations u)))) →
     api_get_conversation index st
     = (Response (ErrorJson (Py.lit "Índice de conversación inválido")) 404,
        st)).
Proof.
  intros Hin Hu. split.
  - intros [H0 Hlt].
    destruct (lookup_lt_is_Some_2 (default [] (conversations u)) (Z.to_nat index))
      as [convo Hconvo]; [lia|].
    exists convo. split; [exact Hconvo|].
    rewrite (select_in_range st name u index convo) by done.
    done.
  - intros Hout. by eapply select_out_of_range.
Qed.

Lemma select_conversation_witness :
  api_get_conversation (-1) after_login
  = (Response (ErrorJson (Py.lit "Índice de conversación inválido")) 404,
     after_login).
Proof.
  apply (proj2 (select_conversation after_login (Py.lit "alice") alice (-1)
                  eq_refl eq_refl)).
  simpl. lia.
Defined.

(** C5. For a logged-in user with a record, create appends an empty
    conversation to the stored sequence and saves it, clears the working
    transcript, points the session at the new position and returns that
    position, which is [len(conversations) - 1] of the grown sequence.
    Creating again straight away gives a second empty conversation at the
    next position, and selecting either of the two returns an empty
    message list. *)
Theorem create_conversation (st : state) (name : Py.str) (u : user) :
  logged_in (sess st) = Some name →
  get_user st name = Some u →
  ∀ st1 st2 n,
    st1 = (api_new_chat st).2 →
    st2 = (api_new_chat st1).2 →
    n = Z.of_nat (length (default [] (conversations u))) →
    (api_new_chat st).1 = Response (IdJson n) 200
    ∧ stored_conversations st1 name
      = default [] (conversations u) ++ [empty_conversation]
    ∧ n = Z.of_nat (length (stored_conversations st1 name)) - 1
    ∧ conversation_history st1 = []
    ∧ current_conversation (sess st1) = Some n
    ∧ (api_new_chat st1).1 = Response (IdJson (n + 1)) 200
    ∧ stored_conversations st2 name
      = default [] (conversations u)
        ++ [empty_conversation; empty_conversation]
    ∧ conversation_history st2 = []
    ∧ current_conversation (sess st2) = Some (n + 1)
    ∧ (api_get_conversation n st2).1 = Response (MessagesJson []) 200
    ∧ (api_get_conversation (n + 1) st2).1 = Response (MessagesJson []) 200.
Proof.
  intros Hin Hu st1 st2 n -> -> ->.
  pose proof (get_user_name _ _ _ Hu) as Hname.
  set (cs := default [] (conversations u)).
  set (u1 := set_conversations (cs ++ [empty_conversation]) u).
  rewrite (new_chat_logged_in st name u Hin Hu). fold cs u1. simpl.
  set (st1 := set_current _ _).
  assert (Hin1 : logged_in (sess st1) = Some name) by exact Hin.
  assert (Hu1 : get_user st1 name = Some u1).
  { unfold st1, get_user, load_users. simpl. by apply find_replace_user. }
  assert (Hs1 : stored_conversations st1 name = cs ++ [empty_conversation]).
  { unfold stored_conversations. by rewrite Hu1. }
  rewrite (new_chat_logged_in st1 name u1 Hin1 Hu1). simpl.
  set (u2 := set_conversations _ u1).
  set (st2 := set_current _ _).
  assert (Hin2 : logged_in (sess st2) = Some name) by exact Hin.
  assert (Hu2 : get_user st2 name = Some u2).
  { unfold st2, get_user, load_users. simpl. by apply find_replace_user. }
  assert (Hcs2 : default [] (conversations u2)
                 = cs ++ [empty_conversation; empty_conversation]).
  { unfold u2. simpl. by rewrite <- app_assoc. }
  assert (Hlen1 : Z.of_nat (length (cs ++ [empty_conversation]))
                  = Z.of_nat (length cs) + 1).
  { rewrite length_app. simpl. lia. }
  split; [done|]. split; [exact Hs1|].
  split; [rewrite Hs1, Hlen1; lia|].
  split; [done|]. split; [done|].
  split; [by rewrite Hlen1|].
  split; [unfold stored_conversations; by rewrite Hu2, Hcs2|].
  split; [done|]. split; [by rewrite Hlen1|].
  split.
  - rewrite (select_in_range st2 name u2 _ empty_conversation); try done; [lia|].
    rewrite Hcs2, Nat2Z.id. rewrite lookup_app_r by lia.
    by replace (length cs - length cs)%nat with 0%nat by lia.
  - rewrite (select_in_range st2 name u2 _ empty_conversation); try done; [lia|].
    rewrite Hcs2. rewrite lookup_app_r by lia.
    by replace (Z.to_nat (Z.of_nat (length cs) + 1) - length cs)%nat
      with 1%nat by lia.
Qed.

Lemma create_conversation_witness :
  (api_new_chat after_login).1 = Response (IdJson 0) 200
  ∧ (api_new_chat (api_new_chat after_login).2).1 = Response (IdJson 1) 200.
Proof.
  pose proof (create_conversation after_login (Py.lit "alice") alice
                eq_refl eq_refl _ _ _ eq_refl eq_refl eq_refl) as H.
  split; [apply H | apply H].
Defined.

(** ** The content of a request *)

Section Content.

Lemma fold_attachments (atts : list attachment) (acc : Py.str) :
  fold_left (λ content att, content ++ attachment_line att) atts acc
  = acc ++ concat (attachment_line <$> atts).
Proof.
  revert acc. induction atts as [|a atts IH]; intros acc; simpl.
  - by rewrite app_nil_r.
  - rewrite IH. by rewrite <- app_assoc.
Qed.

(** The content is empty exactly when the stripped message is empty and
    nothing is attached. *)
Lemma request_content_nil (req : chat_request) :
  request_content req = []
  ↔ Py.strip (default [] (req_message req)) = []
    ∧ default [] (req_attachments req) = [].
Proof.
  unfold request_content. rewrite fold_attachments. split.
  - intros H. apply app_eq_nil in H as [Hm Ha]. split; [exact Hm|].
    destruct (default [] (req_attachments req)); [done|].
    simpl in Ha. discriminate Ha.
  - intros [-> ->]. done.
Qed.

End Content.

(** C4, as stated, fails: a request whose message is blank but which
    carries an attachment is not rejected; the attachment line makes the
    content non-empty and the assistant reply comes back with status
    200. *)
Lemma chat_blank_message_counterexample :
  Py.strip (default [] (req_message attachment_only)) = []
  ∧ request_content attachment_only = [10%N] ++ Py.lit "[adjunto: notes.txt]"
  ∧ (chat service_up attachment_only after_login).1
    = Response (MessageJson (Py.lit "Hi!")) 200.
Proof. repeat split; reflexivity. Qed.

(** C4, amended. The test is on the content: the stripped message followed
    by one reference line per attachment. When that content is empty,
    which is when the stripped message is empty and there is no
    attachment, [chat] answers [{error: "Message is empty"}] with status
    400 and changes nothing; otherwise, for a session whose pointer is
    unset or non-negative, it answers [{message}] carrying the assistant
    reply with status 200. *)
Theorem chat_empty_content
    (env : environment) (req : chat_request) (st : state) :
  pointer_ok st →
  (request_content req = []
   ↔ Py.strip (default [] (req_message req)) = []
     ∧ default [] (req_attachments req) = [])
  ∧ (request_content req = [] →
     chat env req st
     = (Response (ErrorJson (Py.lit "Message is empty")) 400, st))
  ∧ (request_content req ≠ [] →
     (chat env req st).1
     = Response (MessageJson (assistant_content env req st)) 200).
Proof.
  intros Hok. split; [apply request_content_nil|]. split.
  - intros Hc. unfold chat. by rewrite Hc.
  - intros Hc.
    destruct (logged_in (sess st)) as [name|] eqn:Hin.
    + destruct (get_user st name) as [u|] eqn:Hu.
      * by rewrite (chat_logged_in env req st name u).
      * rewrite chat_not_persisted by eauto. done.
    + rewrite chat_not_persisted by eauto. done.
Qed.

Lemma chat_empty_content_witness :
  chat service_up
    {| req_message := Some (Py.lit "  "); req_attachments := None;
       req_model := None |} after_login
  = (Response (ErrorJson (Py.lit "Message is empty")) 400, after_login).
Proof.
  apply (chat_empty_content service_up
           {| req_message := Some (Py.lit "  "); req_attachments := None;
              req_model := None |} after_login).
  - intros i H. vm_compute in H. discriminate H.
  - reflexivity.
Defined.

Section Titles.

Implicit Types (msgs : list turn) (convs : list conversation) (idx : nat).

Lemma title_loop_first_user (t : Py.str) msgs :
  title_loop t msgs
  = match first_user_turn msgs with
    | Some msg => Py.slice_to 50 (Py.first_line (default [] (content msg)))
    | None => t
    end.
Proof.
  unfold first_user_turn. induction msgs as [|msg rest IH]; simpl; [done|].
  rewrite filter_cons. case_bool_decide as Hrole.
  - rewrite decide_True by done. done.
  - rewrite decide_False by done. exact IH.
Qed.

Lemma summaries_from_lookup convs : ∀ idx k,
  summaries_from idx convs !! k = summary_of (idx + k) <$> convs !! k.
Proof.
  induction convs as [|c convs IH]; intros idx [|k]; simpl; try done.
  - by rewrite Nat.add_0_r.
  - rewrite IH. by replace (S idx + k)%nat with (idx + S k)%nat by lia.
Qed.

Lemma summaries_from_length convs idx :
  length (summaries_from idx convs) = length convs.
Proof.
  revert idx. induction convs as [|c convs IH]; intros idx; simpl; [done|].
  by rewrite IH.
Qed.

Lemma position_title_not_default idx :
  position_title idx ≠ Py.lit "Nueva conversación".
Proof. unfold position_title. discriminate. Qed.

Lemma slice_first_line_nil (s : Py.str) :
  Py.slice_to 50 s = [] ↔ s = [].
Proof. destruct s; simpl; split; congruence. Qed.

Lemma api_conversations_logged_in (st : state) (name : Py.str) (u : user) :
  logged_in (sess st) = Some name →
  get_user st name = Some u →
  api_conversations st
  = Response
      (ConversationsJson (summaries_from 0 (default [] (conversations u))))
      200.
Proof. intros Hin Hu. unfold api_conversations. by rewrite Hin, Hu. Qed.

End Titles.

(** C6, as stated, fails: when the first user turn starts with a line
    feed its first line is empty, and the listed title is not that empty
    first line but the position-based title. *)
Lemma list_titles_counterexample :
  api_conversations blank_first_line
  = Response
      (ConversationsJson [ {| id := 0; title := Py.lit "Conversación 1" |} ])
      200
  ∧ Py.slice_to 50 (Py.first_line ([10%N] ++ Py.lit "second line")) = []
  ∧ Py.lit "Conversación 1" ≠ [].
Proof. repeat split; try reflexivity. discriminate. Qed.

(** C6, amended. For a logged-in user with a record, list answers 200 with
    one [{id, title}] entry per stored conversation, in storage order,
    [id] being the position. The title is ["Nueva conversación"] when the
    conversation has no turn with role user; otherwise it is the first
    line of the first such turn cut to at most 50 characters when that
    line is not empty, and ["Conversación {position+1}"] when it is
    empty. *)
Theorem list_titles (st : state) (name : Py.str) (u : user) :
  logged_in (sess st) = Some name →
  get_user st name = Some u →
  ∃ l,
    api_conversations st = Response (ConversationsJson l) 200
    ∧ length l = length (default [] (conversations u))
    ∧ ∀ idx convo,
        default [] (conversations u) !! idx = Some convo →
        ∃ t,
          l !! idx = Some {| id := idx; title := t |}
          ∧ match first_user_turn (default [] (messages convo)) with
            | None => t = Py.lit "Nueva conversación"
            | Some msg =>
              let line := Py.first_line (default [] (content msg)) in
              if decide (line = []) then
                t = Py.lit "Conversación " ++ Py.of_nat (idx + 1)
              else
                t = take 50 line ∧ (length t ≤ 50)%nat
            end.
Proof.
  intros Hin Hu.
  exists (summaries_from 0 (default [] (conversations u))).
  split; [by apply api_conversations_logged_in with name|].
  split; [apply summaries_from_length|].
  intros idx convo Hconvo.
  exists (title (summary_of idx convo)).
  split.
  { rewrite summaries_from_lookup, Hconvo. done. }
  unfold summary_of. cbn [title]. rewrite title_loop_first_user.
  destruct (first_user_turn (default [] (messages convo))) as [msg|]; [|done].
  cbv zeta. case_decide as Hline.
  - rewrite Hline. done.
  - unfold Py.or_else.
    rewrite falsy_false
      by (intros H; exact (Hline (proj1 (slice_first_line_nil _) H))).
    split; [done|]. unfold Py.slice_to. rewrite length_take. lia.
Qed.

Lemma list_titles_witness :
  ∃ l,
    api_conversations hello_world = Response (ConversationsJson l) 200
    ∧ l !! 0%nat = Some {| id := 0; title := Py.lit "Hello" |}.
Proof.
  destruct (list_titles hello_world (Py.lit "alice")
              (set_conversations
                 [ {| messages :=
                        Some [user_turn (Py.lit "Hello" ++ [10%N] ++ Py.lit "world")] |} ]
                 alice) eq_refl eq_refl)
    as (l & Hl & _ & Hall).
  exists l. split; [exact Hl|].
  destruct (Hall 0%nat _ eq_refl) as (t & Ht & Hcase).
  vm_compute in Hcase. destruct Hcase as [-> _]. exact Ht.
Defined.

(** C10. When the first turn with role user of a stored conversation has
    an empty first line (its content is empty, missing, or starts with a
    line feed), list gives that conversation the position-based title
    ["Conversación {index+1}"], which differs from the no-user-turn
    default ["Nueva conversación"]. *)
Theorem list_title_empty_first_line
    (st : state) (name : Py.str) (u : user)
    (idx : nat) (convo : conversation) (msg : turn) :
  logged_in (sess st) = Some name →
  get_user st name = Some u →
  default [] (conversations u) !! idx = Some convo →
  first_user_turn (default [] (messages convo)) = Some msg →
  Py.first_line (default [] (content msg)) = [] →
  ∃ l,
    api_conversations st = Response (ConversationsJson l) 200
    ∧ l !! idx
      = Some {| id := idx;
                title := Py.lit "Conversación " ++ Py.of_nat (idx + 1) |}
    ∧ Py.lit "Conversación " ++ Py.of_nat (idx + 1)
      ≠ Py.lit "Nueva conversación".
Proof.
  intros Hin Hu Hconvo Hfirst Hline.
  exists (summaries_from 0 (default [] (conversations u))).
  split; [by apply api_conversations_logged_in with name|].
  split; [|apply position_title_not_default].
  rewrite summaries_from_lookup, Hconvo. cbn [fmap option_fmap option_map].
  unfold summary_of. rewrite title_loop_first_user, Hfirst, Hline. done.
Qed.

Lemma list_title_empty_first_line_witness :
  ∃ l,
    api_conversations blank_first_line = Response (ConversationsJson l) 200
    ∧ l !! 0%nat = Some {| id := 0; title := Py.lit "Conversación 1" |}.
Proof.
  destruct (list_title_empty_first_line blank_first_line (Py.lit "alice")
              (set_conversations
                 [ {| messages :=
                        Some [user_turn ([10%N] ++ Py.lit "second line")] |} ]
                 alice)
              0%nat _ _ eq_refl eq_refl eq_refl eq_refl eq_refl)
    as (l & Hl & Hidx & _).
  exists l. split; [exact Hl | exact Hidx].
Defined.

(** ** The session pointer stays well formed *)

Section PointerInvariant.

Implicit Types (st : state).

Lemma pointer_ok_chat (env : environment) (req : chat_request) st :
pointer_ok st → pointer_ok (chat env req st).2.
Proof.
intros Hok.
destruct (decide (request_content req = [])) as [Hc|Hc].
{ unfold chat. by rewrite Hc. }
destruct (logged_in (sess st)) as [name|] eqn:Hin.
- destruct (get_user st name) as [u|] eqn:Hu.
  + rewrite (chat_logged_in env req st name u) by done.
    by apply saved_pointer_ok.
  + rewrite chat_not_persisted by eauto. exact Hok.
- rewrite chat_not_persisted by eauto. exact Hok.
Qed.

Lemma pointer_ok_select (index : Z) st :
pointer_ok st → pointer_ok (api_get_conversation index st).2.
Proof.
intros Hok. unfold api_get_conversation.
destruct (logged_in (sess st)) as [name|]; [|done].
destruct (get_user st name) as [u|]; [|done].
destruct (Z.ltb_spec index 0); [done|].
destruct (index >=? _); [done|]. simpl.
destruct (_ !! _); [|done].
intros i [= <-]. done.
Qed.

Lemma pointer_ok_new_chat st :
pointer_ok st → pointer_ok (api_new_chat st).2.
Proof.
intros Hok. unfold api_new_chat.
destruct (logged_in (sess st)) as [name|]; [|done].
destruct (get_user st name) as [u|]; [|done].
intros i [= <-]. rewrite length_app. simpl. lia.
Qed.

Lemma pointer_ok_reset st :
pointer_ok st → pointer_ok (reset_history st).2.
Proof. done. Qed.

End PointerInvariant.

(** The records of the other users are written back unchanged. *)
Lemma chat_other_user
    (env : environment) (req : chat_request) (st : state)
    (name other : Py.str) (u : user) :
  logged_in (sess st) = Some name →
  get_user st name = Some u →
  request_content req ≠ [] →
  pointer_ok st →
  other ≠ name →
  get_user (chat env req st).2 other = get_user st other.
Proof.
  intros Hin Hu Hc Hok Hother.
  rewrite (chat_logged_in env req st name u) by done.
  unfold saved, get_user, update_user, load_users. simpl.
  apply find_replace_user_other. simpl.
  rewrite (get_user_name _ _ _ Hu). congruence.
Qed.

(** A pointer below [-len(conversations)] is the one way the write-back
    raises: Python finds no such position. *)
Example chat_negative_pointer :
  (chat service_up hello
     {| users_file := [alice]; conversation_history := [];
        sess := alice_session (Some (-1)) |}).1
  = Raised IndexError.
Proof. reflexivity. Qed.

(** * The rest of the routes *)

(** ** More facts about the user store *)

Section StoreMore.

Implicit Types (users : list user) (u : user) (name : Py.str).

Lemma find_user_None users name :
  find_user users name = None ↔ Some name ∉ username <$> users.
Proof.
  induction users as [|v rest IH]; simpl.
  - split; [intros _; apply not_elem_of_nil | done].
  - rewrite not_elem_of_cons. case_bool_decide as Hv.
    + split; [done | intros [Hne _]; by destruct Hne].
    + rewrite IH. split; [intros H; split; [congruence | done] | by intros [_ H]].
Qed.

Lemma find_user_app users name v :
  find_user (users ++ [v]) name
  = match find_user users name with
    | Some u => Some u
    | None => if bool_decide (username v = Some name) then Some v else None
    end.
Proof.
  induction users as [|x rest IH]; simpl; [done|].
  destruct (bool_decide (username x = Some name)); [done | exact IH].
Qed.

Lemma replace_user_usernames users u name :
  username u = Some name →
  username <$> replace_user users u
  = match find_user users name with
    | Some _ => username <$> users
    | None => (username <$> users) ++ [Some name]
    end.
Proof.
  intros Hu. induction users as [|v rest IH]; cbn [replace_user find_user].
  - simpl. by rewrite Hu.
  - rewrite Hu. case_bool_decide as Hv.
    + by rewrite !fmap_cons, Hu, Hv.
    + rewrite fmap_cons, IH. by destruct (find_user rest name).
Qed.

Lemma replace_user_credentials users u u0 name :
  find_user users name = Some u0 →
  credentials u = credentials u0 →
  credentials <$> replace_user users u = credentials <$> users.
Proof.
  intros Hfind Hcred.
  assert (Hu : username u = Some name).
  { apply find_user_name in Hfind. unfold credentials in Hcred. congruence. }
  induction users as [|v rest IH]; cbn [replace_user find_user] in *; [done|].
  rewrite Hu. case_bool_decide as Hv.
  - injection Hfind as ->. by rewrite !fmap_cons, Hcred.
  - by rewrite !fmap_cons, IH.
Qed.

Lemma find_user_filter_gone users name :
  find_user (filter (λ u, username u ≠ Some name) users) name = None.
Proof.
  apply find_user_None. intros Hin.
  apply list_elem_of_fmap in Hin as (v & Hv & Hin).
  apply list_elem_of_filter in Hin as [Hne _]. by destruct Hne.
Qed.

Lemma find_user_filter_other users name other :
  other ≠ name →
  find_user (filter (λ u, username u ≠ Some name) users) other
  = find_user users other.
Proof.
  intros Hne. induction users as [|v rest IH]; simpl; [done|].
  rewrite filter_cons. case_decide as Hv; simpl.
  - case_bool_decide; [done | exact IH].
  - rewrite IH. rewrite bool_decide_eq_false_2; [done | congruence].
Qed.

End StoreMore.

(** X1. [update_user] followed by [get_user]: the updated record is read
    back under its own username, every other username reads what it read
    before, and the list of usernames on file is unchanged when the user
    was on file and grows by that one name at the end when not. *)
Theorem update_user_then_get
    (st : state) (u : user) (name other : Py.str) :
  username u = Some name →
  get_user (update_user u st) name = Some u
  ∧ (other ≠ name → get_user (update_user u st) other = get_user st other)
  ∧ usernames (update_user u st)
    = match get_user st name with
      | Some _ => usernames st
      | None => usernames st ++ [Some name]
      end.
Proof.
  intros Hu. split; [by apply get_update_user|]. split.
  - intros Hne. unfold get_user, update_user, load_users. simpl.
    apply find_replace_user_other. congruence.
  - unfold usernames, update_user, get_user, load_users. simpl.
    by apply replace_user_usernames.
Qed.

Lemma update_user_then_get_witness :
  get_user (update_user bob after_login) (Py.lit "bob") = Some bob
  ∧ usernames (update_user bob after_login)
    = [Some (Py.lit "alice"); Some (Py.lit "bob")].
Proof.
  pose proof (update_user_then_get after_login bob (Py.lit "bob")
                (Py.lit "alice") eq_refl) as (H1 & _ & H3).
  split; [exact H1 | exact H3].
Defined.

(** ** Registration and login *)

Section Accounts.

Variables (w : werkzeug) (f : form).
Implicit Types (st : state).

Lemma register_accepts st :
  Py.strip (default [] (form_username f)) ≠ [] →
  default [] (form_password f) ≠ [] →
  default [] (form_password f) = default [] (form_confirm f) →
  get_user st (Py.strip (default [] (form_username f))) = None →
  register w POST f st
  = (RedirectTo (Py.lit "login"),
     save_users (users_file st ++ [registered w f]) st).
Proof.
  intros Hn Hp Hc Hfree. unfold register.
  rewrite (falsy_false _ Hn), (falsy_false _ Hp). simpl.
  rewrite bool_decide_eq_false_2 by (intros H; by apply H).
  unfold load_users. by rewrite Hfree.
Qed.

Lemma register_rejects st :
  Py.strip (default [] (form_username f)) = []
  ∨ default [] (form_password f) = []
  ∨ default [] (form_password f) ≠ default [] (form_confirm f)
  ∨ is_Some (get_user st (Py.strip (default [] (form_username f)))) →
  ∃ e, register w POST f st
       = (Template (Py.lit "register.html") (Some e) 200, st).
Proof.
  intros Hbad. unfold register.
  destruct (Py.falsy (Py.strip _) || Py.falsy (default [] (form_password f)))
    eqn:Hempty; [by eexists|].
  case_bool_decide as Hc; [by eexists|].
  destruct (get_user st _) as [u|] eqn:Hu; [by eexists|].
  exfalso. apply orb_false_iff in Hempty as [Hn Hp].
  destruct Hbad as [H|[H|[H|[x H]]]].
  - by rewrite H in Hn.
  - by rewrite H in Hp.
  - by apply H.
  - discriminate H.
Qed.

Lemma get_user_registered st :
  get_user st (Py.strip (default [] (form_username f))) = None →
  get_user (save_users (users_file st ++ [registered w f]) st)
           (Py.strip (default [] (form_username f)))
  = Some (registered w f).
Proof.
  intros Hfree. unfold get_user, load_users in *. simpl.
  rewrite find_user_app, Hfree. simpl. by rewrite bool_decide_eq_true_2.
Qed.

End Accounts.

(** X2. A registration with a non-empty stripped username that is not on
    file, a non-empty password and a matching confirmation redirects to
    the login page and appends one record: that username reads back a
    record with role ["user"], the generated hash and no conversations,
    every other username reads what it read before, and the working
    transcript and the session are untouched. *)
Theorem register_new_user (w : werkzeug) (f : form) (st : state) :
  Py.strip (default [] (form_username f)) ≠ [] →
  default [] (form_password f) ≠ [] →
  default [] (form_password f) = default [] (form_confirm f) →
  get_user st (Py.strip (default [] (form_username f))) = None →
  (register w POST f st).1 = RedirectTo (Py.lit "login")
  ∧ get_user (register w POST f st).2 (Py.strip (default [] (form_username f)))
    = Some {| username := Some (Py.strip (default [] (form_username f)));
              password_hash :=
                Some (generate_password_hash w (default [] (form_password f)));
              user_role := Some (Py.lit "user");
              conversations := Some [] |}
  ∧ (∀ other,
       other ≠ Py.strip (default [] (form_username f)) →
       get_user (register w POST f st).2 other = get_user st other)
  ∧ usernames (register w POST f st).2
    = usernames st ++ [Some (Py.strip (default [] (form_username f)))]
  ∧ conversation_history (register w POST f st).2 = conversation_history st
  ∧ sess (register w POST f st).2 = sess st.
Proof.
  intros Hn Hp Hc Hfree. rewrite register_accepts by done. simpl.
  unfold get_user, load_users, usernames in *. simpl.
  split; [done|]. split; [|split; [|split; [|done]]].
  - by apply (get_user_registered w f st).
  - intros other Hne. rewrite find_user_app.
    destruct (find_user (users_file st) other); [done|]. simpl.
    rewrite bool_decide_eq_false_2; [done | congruence].
  - by rewrite fmap_app.
Qed.

Lemma register_new_user_witness :
  get_user (register plain_hashing POST bob_form after_login).2 (Py.lit "bob")
  = Some bob.
Proof.
  apply (register_new_user plain_hashing bob_form after_login).
  - vm_compute. discriminate.
  - vm_compute. discriminate.
  - reflexivity.
  - reflexivity.
Defined.

(** X3. A POSTed registration is refused exactly when the stripped
    username is empty, the password is empty, the confirmation differs,
    or the username is already on file; a refusal renders the
    registration page again with an error, with status 200, and changes
    nothing. *)
Theorem register_refused (w : werkzeug) (f : form) (st : state) :
  (Py.strip (default [] (form_username f)) = []
   ∨ default [] (form_password f) = []
   ∨ default [] (form_password f) ≠ default [] (form_confirm f)
   ∨ is_Some (get_user st (Py.strip (default [] (form_username f)))))
  ↔ ∃ e, register w POST f st
         = (Template (Py.lit "register.html") (Some e) 200, st).
Proof.
  split; [apply register_rejects|].
  intros [e He].
  destruct (decide (Py.strip (default [] (form_username f)) = [])) as [|Hn];
    [by left|].
  destruct (decide (default [] (form_password f) = [])) as [|Hp];
    [by right; left|].
  destruct (decide (default [] (form_password f) = default [] (form_confirm f)))
    as [Hc|]; [|by right; right; left].
  destruct (get_user st (Py.strip (default [] (form_username f)))) as [u|] eqn:Hu;
    [by right; right; right|].
  rewrite register_accepts in He by done. discriminate He.
Qed.

Section LoginFacts.

Variables (w : werkzeug) (f : form).
Implicit Types (st : state) (u : user).

Lemma login_accepts st u :
  get_user st (Py.strip (default [] (form_username f))) = Some u →
  check_password_hash w (default [] (password_hash u))
                      (default [] (form_password f)) = true →
  login w POST f st
  = (RedirectTo (Py.lit "index"),
     set_session
       {| session_username := Some (Py.strip (default [] (form_username f)));
          session_role := Some (default (Py.lit "user") (user_role u));
          current_conversation := None |} st).
Proof. intros Hu Hcheck. unfold login. by rewrite Hu, Hcheck. Qed.

Lemma login_rejects st :
  (∀ u, get_user st (Py.strip (default [] (form_username f))) = Some u →
        check_password_hash w (default [] (password_hash u))
                            (default [] (form_password f)) = false) →
  login w POST f st
  = (Template (Py.lit "login.html")
              (Some (Py.lit "Credenciales incorrectas")) 401, st).
Proof.
  intros Hbad. unfold login.
  destruct (get_user st _) as [u|]; [|done]. by rewrite (Hbad u).
Qed.

Lemma logged_in_named (name : Py.str) (r : option Py.str) (c : option Z) :
  name ≠ [] →
  logged_in {| session_username := Some name; session_role := r;
               current_conversation := c |} = Some name.
Proof. intros Hn. unfold logged_in. simpl. by rewrite falsy_false. Qed.

End LoginFacts.

(** X4. Logging in never touches the users file or the working
    transcript. It redirects to the chat page exactly when it is a POST
    and the stripped username has a record whose stored hash checks
    against the password; the session then holds that username, the
    record's role (["user"] when it has none) and no selected
    conversation. In every other case the state, session included, is
    left as it was. *)
Theorem login_session (w : werkzeug) (m : method) (f : form) (st : state) :
  users_file (login w m f st).2 = users_file st
  ∧ conversation_history (login w m f st).2 = conversation_history st
  ∧ ((login w m f st).1 = RedirectTo (Py.lit "index")
     ↔ m = POST
       ∧ ∃ u, get_user st (Py.strip (default [] (form_username f))) = Some u
              ∧ check_password_hash w (default [] (password_hash u))
                                    (default [] (form_password f)) = true)
  ∧ ((login w m f st).1 = RedirectTo (Py.lit "index") →
     ∃ u, get_user st (Py.strip (default [] (form_username f))) = Some u
          ∧ sess (login w m f st).2
            = {| session_username :=
                   Some (Py.strip (default [] (form_username f)));
                 session_role := Some (default (Py.lit "user") (user_role u));
                 current_conversation := None |})
  ∧ ((login w m f st).1 ≠ RedirectTo (Py.lit "index") →
     (login w m f st).2 = st).
Proof.
  destruct m.
  { simpl. repeat split; try done. intros [[=] _]. }
  destruct (get_user st (Py.strip (default [] (form_username f)))) as [u|] eqn:Hu.
  - destruct (check_password_hash w (default [] (password_hash u))
                (default [] (form_password f))) eqn:Hcheck.
    + rewrite (login_accepts w f st u Hu Hcheck). simpl.
      repeat split; try done; eauto.
    + rewrite login_rejects.
      2:{ intros u' Hu'. rewrite Hu in Hu'. by injection Hu' as <-. }
      simpl. repeat split; try done.
      intros (_ & u' & [= <-] & Hc). congruence.
  - rewrite login_rejects by (intros u' Hu'; congruence). simpl.
    repeat split; try done.
    intros (_ & u' & [=] & _).
Qed.

(** X5. Round trip through the account routes: after a registration that
    is accepted, logging in with the same form succeeds whenever the
    hash generated at registration checks against the password; the
    session is then logged in under the stripped username with role
    ["user"] and no selected conversation. *)
Theorem register_then_login (w1 w2 : werkzeug) (f : form) (st : state) :
  Py.strip (default [] (form_username f)) ≠ [] →
  default [] (form_password f) ≠ [] →
  default [] (form_password f) = default [] (form_confirm f) →
  get_user st (Py.strip (default [] (form_username f))) = None →
  check_password_hash w2
    (generate_password_hash w1 (default [] (form_password f)))
    (default [] (form_password f)) = true →
  (login w2 POST f (register w1 POST f st).2).1 = RedirectTo (Py.lit "index")
  ∧ sess (login w2 POST f (register w1 POST f st).2).2
    = {| session_username := Some (Py.strip (default [] (form_username f)));
         session_role := Some (Py.lit "user");
         current_conversation := None |}
  ∧ logged_in (sess (login w2 POST f (register w1 POST f st).2).2)
    = Some (Py.strip (default [] (form_username f))).
Proof.
  intros Hn Hp Hc Hfree Hcheck.
  rewrite (register_accepts w1 f st) by done. cbn [snd].
  rewrite (login_accepts w2 f _ (registered w1 f)).
  - simpl. split; [done|]. split; [done|]. by apply logged_in_named.
  - by apply get_user_registered.
  - exact Hcheck.
Qed.

Lemma register_then_login_witness :
  logged_in
    (sess (login plain_hashing POST bob_form
             (register plain_hashing POST bob_form after_login).2).2)
  = Some (Py.lit "bob").
Proof.
  apply (register_then_login plain_hashing plain_hashing bob_form after_login).
  - vm_compute. discriminate.
  - vm_compute. discriminate.
  - reflexivity.
  - reflexivity.
  - reflexivity.
Defined.

(** ** What a chat request can change *)

Section ChatShape.

Variables (env : environment) (req : chat_request).
Implicit Types (st : state) (u : user) (name : Py.str).

(** The write-back replaces the user's record by the same record with
    other conversations, and touches nothing else but the pointer. *)
Lemma persist_shape u st st' :
  persist u st = Some st' →
  conversation_history st' = conversation_history st
  ∧ session_username (sess st') = session_username (sess st)
  ∧ session_role (sess st') = session_role (sess st)
  ∧ ∃ cs, users_file st'
          = replace_user (users_file st) (set_conversations cs u).
Proof.
  unfold persist.
  destruct (current_conversation (sess st)) as [i|];
    destruct (Py.index _ _); intros [= <-]; simpl;
    (split; [done|]; split; [done|]; split; [done|]; by eexists).
Qed.

Lemma chat_shape st :
  request_content req ≠ [] →
  conversation_history (chat env req st).2 = answered env req st
  ∧ session_username (sess (chat env req st).2) = session_username (sess st)
  ∧ session_role (sess (chat env req st).2) = session_role (sess st)
  ∧ (users_file (chat env req st).2 = users_file st
     ∨ ∃ name u cs,
         logged_in (sess st) = Some name
         ∧ get_user st name = Some u
         ∧ users_file (chat env req st).2
           = replace_user (users_file st) (set_conversations cs u)).
Proof.
  intros Hc. unfold chat. rewrite (falsy_false _ Hc). simpl.
  destruct (logged_in (sess st)) as [name|] eqn:Hin; [|simpl; eauto].
  unfold get_user, load_users. simpl.
  destruct (find_user (users_file st) name) as [u|] eqn:Hu; [|simpl; eauto].
  destruct (persist u _) as [st'|] eqn:Hp; [|simpl; eauto].
  apply persist_shape in Hp as (Hh & Hn & Hr & cs & Hcs). simpl in *.
  split; [done|]. split; [done|]. split; [done|].
  right. by exists name, u, cs.
Qed.

Lemma chat_rejected st :
  request_content req = [] →
  chat env req st
  = (Response (ErrorJson (Py.lit "Message is empty")) 400, st).
Proof. intros Hc. unfold chat. by rewrite Hc. Qed.

Lemma prime_prefix (h : list turn) : h `prefix_of` prime h.
Proof. destruct h; [apply prefix_nil | done]. Qed.

(** With no conversation selected, the history goes into a new last
    conversation. *)
Lemma chat_new_conversation st name u :
  logged_in (sess st) = Some name →
  get_user st name = Some u →
  request_content req ≠ [] →
  current_conversation (sess st) = None →
  stored_conversations (chat env req st).2 name
  = default [] (conversations u)
    ++ [ {| messages := Some (answered env req st) |} ]
  ∧ current_conversation (sess (chat env req st).2)
    = Some (Z.of_nat (length (default [] (conversations u)))).
Proof.
  intros Hin Hu Hc Hnone.
  assert (Hok : pointer_ok st) by (intros i Hi; congruence).
  rewrite (chat_logged_in env req st name u) by done. cbn [snd].
  rewrite saved_stored by (by eapply get_user_name).
  rewrite saved_pointer. unfold conv_index. rewrite Hnone.
  split; [|done]. rewrite write_back_beyond by lia.
  rewrite Nat2Z.id.
  by replace (length (default [] (conversations u))
              - length (default [] (conversations u)))%nat with 0%nat by lia.
Qed.

(** With a stored conversation selected, the history overwrites that
    conversation and no other. *)
Lemma chat_selected_conversation st name u i :
  logged_in (sess st) = Some name →
  get_user st name = Some u →
  request_content req ≠ [] →
  current_conversation (sess st) = Some i →
  0 ≤ i < Z.of_nat (length (default [] (conversations u))) →
  stored_conversations (chat env req st).2 name
  = <[Z.to_nat i := {| messages := Some (answered env req st) |}]>
      (default [] (conversations u)).
Proof.
  intros Hin Hu Hc Hi Hrange.
  assert (Hok : pointer_ok st).
  { intros j Hj. rewrite Hi in Hj. injection Hj as <-. lia. }
  rewrite (chat_logged_in env req st name u) by done. cbn [snd].
  rewrite saved_stored by (by eapply get_user_name).
  unfold conv_index. rewrite Hi. unfold write_back.
  replace (S (Z.to_nat i) - length (default [] (conversations u)))%nat
    with 0%nat by lia.
  simpl. by rewrite app_nil_r.
Qed.

End ChatShape.

(** X6. The working transcript only grows: a rejected request leaves it
    as it is, and every other request, whether or not anything is
    written back, leaves the old transcript (after the system turn, when
    it was empty) followed by the user turn and the assistant turn. *)
Theorem chat_history_grows
    (env : environment) (req : chat_request) (st : state) :
  conversation_history st `prefix_of` conversation_history (chat env req st).2
  ∧ (request_content req = [] →
     conversation_history (chat env req st).2 = conversation_history st)
  ∧ (request_content req ≠ [] →
     conversation_history (chat env req st).2
     = prime (conversation_history st)
       ++ [user_turn (request_content req);
           assistant_turn (assistant_content env req st)]).
Proof.
  destruct (decide (request_content req = [])) as [Hc|Hc].
  - rewrite chat_rejected by done. simpl. done.
  - destruct (chat_shape env req st Hc) as (Hh & _).
    assert (Hnew : conversation_history (chat env req st).2
                   = prime (conversation_history st)
                     ++ [user_turn (request_content req);
                         assistant_turn (assistant_content env req st)]).
    { rewrite Hh. unfold answered, chat_payload. simpl.
      by rewrite <- app_assoc. }
    split; [|done].
    rewrite Hnew. etrans; [apply prime_prefix | by apply prefix_app_r].
Qed.

(** X7. No chat request changes who is on file: the usernames, password
    hashes and roles in the users file are the same after the request,
    in the same order; the same holds for creating and for selecting a
    conversation. *)
Theorem conversations_keep_credentials
    (env : environment) (req : chat_request) (index : Z) (st : state) :
  credentials <$> users_file (chat env req st).2
  = credentials <$> users_file st
  ∧ credentials <$> users_file (api_new_chat st).2
    = credentials <$> users_file st
  ∧ users_file (api_get_conversation index st).2 = users_file st.
Proof.
  split; [|split].
  - destruct (decide (request_content req = [])) as [Hc|Hc].
    { by rewrite chat_rejected. }
    destruct (chat_shape env req st Hc)
      as (_ & _ & _ & [-> | (name & u & cs & _ & Hu & ->)]); [done|].
    by apply replace_user_credentials with u name.
  - unfold api_new_chat.
    destruct (logged_in (sess st)) as [name|]; [|done].
    destruct (get_user st name) as [u|] eqn:Hu; [|done]. simpl.
    by apply replace_user_credentials with u name.
  - unfold api_get_conversation.
    destruct (logged_in (sess st)) as [name|]; [|done].
    destruct (get_user st name) as [u|]; [|done].
    destruct (_ || _); [done|]. by destruct (_ !! _).
Qed.

(** X8. A chat request and the creation of a conversation write to the
    record of the session's user only: every other username reads the
    record it read before. *)
Theorem conversations_of_others_untouched
    (env : environment) (req : chat_request) (st : state) (other : Py.str) :
  logged_in (sess st) ≠ Some other →
  get_user (chat env req st).2 other = get_user st other
  ∧ get_user (api_new_chat st).2 other = get_user st other.
Proof.
  intros Hother. split.
  - destruct (decide (request_content req = [])) as [Hc|Hc].
    { by rewrite chat_rejected. }
    unfold get_user, load_users.
    destruct (chat_shape env req st Hc)
      as (_ & _ & _ & [-> | (name & u & cs & Hin & Hu & ->)]); [done|].
    apply find_replace_user_other. simpl.
    rewrite (get_user_name _ _ _ Hu). congruence.
  - unfold api_new_chat.
    destruct (logged_in (sess st)) as [name|] eqn:Hin; [|done].
    destruct (get_user st name) as [u|] eqn:Hu; [|done]. simpl.
    unfold get_user, load_users. simpl.
    apply find_replace_user_other. simpl.
    rewrite (get_user_name _ _ _ Hu). congruence.
Qed.

Lemma conversations_of_others_untouched_witness :
  get_user
    (chat service_up hello
       {| users_file := [alice; bob]; conversation_history := [];
          sess := alice_session None |}).2 (Py.lit "bob")
  = Some bob.
Proof.
  apply (conversations_of_others_untouched service_up hello
           {| users_file := [alice; bob]; conversation_history := [];
              sess := alice_session None |} (Py.lit "bob")).
  vm_compute. discriminate.
Defined.

(** ** Routes in sequence *)

(** X9. Continuing a stored conversation: after selecting conversation
    [i], a chat request stores, at position [i], the selected messages
    (after the system turn, when there were none) followed by the user
    turn and the assistant turn; the list keeps its length and every
    other position keeps its conversation. *)
Theorem select_then_chat
    (env : environment) (req : chat_request) (st : state)
    (name : Py.str) (u : user) (i : Z) (convo : conversation) :
  logged_in (sess st) = Some name →
  get_user st name = Some u →
  0 ≤ i →
  default [] (conversations u) !! Z.to_nat i = Some convo →
  request_content req ≠ [] →
  stored_conversations
    (chat env req (api_get_conversation i st).2).2 name
  = <[Z.to_nat i :=
        {| messages :=
             Some (prime (default [] (messages convo))
                   ++ [user_turn (request_content req);
                       assistant_turn
                         (assistant_content env req
                            (api_get_conversation i st).2)]) |}]>
      (default [] (conversations u)).
Proof.
  intros Hin Hu H0 Hconvo Hc.
  rewrite (select_in_range st name u i convo) by done. cbn [snd].
  set (st1 := set_current i _).
  rewrite (chat_selected_conversation env req st1 name u i); try done.
  - unfold answered, chat_payload. simpl. by rewrite <- app_assoc.
  - apply lookup_lt_Some in Hconvo. lia.
Qed.

Lemma select_then_chat_witness :
  length
    (stored_conversations
       (chat service_up hello
          (api_get_conversation 0 hello_world).2).2 (Py.lit "alice"))
  = 1%nat.
Proof.
  rewrite (select_then_chat service_up hello hello_world (Py.lit "alice")
             (set_conversations
                [ {| messages :=
                       Some [user_turn (Py.lit "Hello" ++ [10%N] ++ Py.lit "world")] |} ]
                alice) 0
             {| messages :=
                  Some [user_turn (Py.lit "Hello" ++ [10%N] ++ Py.lit "world")] |}).
  - reflexivity.
  - reflexivity.
  - reflexivity.
  - lia.
  - reflexivity.
  - vm_compute. discriminate.
Defined.

(** X10. Resetting the history and then chatting starts over: the
    transcript is the system turn, the user turn and the assistant turn,
    and when the session points at a stored conversation, that
    conversation is overwritten with these three turns. *)
Theorem reset_then_chat
    (env : environment) (req : chat_request) (st : state)
    (name : Py.str) (u : user) (i : Z) :
  logged_in (sess st) = Some name →
  get_user st name = Some u →
  current_conversation (sess st) = Some i →
  0 ≤ i < Z.of_nat (length (default [] (conversations u))) →
  request_content req ≠ [] →
  conversation_history (chat env req (reset_history st).2).2
  = [system_turn; user_turn (request_content req);
     assistant_turn (assistant_content env req (reset_history st).2)]
  ∧ stored_conversations (chat env req (reset_history st).2).2 name
    = <[Z.to_nat i :=
          {| messages :=
               Some [system_turn; user_turn (request_content req);
                     assistant_turn
                       (assistant_content env req (reset_history st).2)] |}]>
        (default [] (conversations u)).
Proof.
  intros Hin Hu Hi Hrange Hc. cbn [reset_history snd].
  split.
  - by destruct (chat_shape env req (set_history [] st) Hc) as (-> & _).
  - by rewrite (chat_selected_conversation env req _ name u i).
Qed.

Lemma reset_then_chat_witness :
  stored_conversations
    (chat service_up hello
       (reset_history
          {| users_file := users_file hello_world;
             conversation_history := [user_turn (Py.lit "stale")];
             sess := alice_session (Some 0) |}).2).2 (Py.lit "alice")
  = [ {| messages :=
           Some [system_turn; user_turn (Py.lit "Hello");
                 assistant_turn (Py.lit "Hi!")] |} ].
Proof.
  apply (reset_then_chat service_up hello
           {| users_file := users_file hello_world;
              conversation_history := [user_turn (Py.lit "stale")];
              sess := alice_session (Some 0) |}
           (Py.lit "alice")
           (set_conversations
              [ {| messages :=
                     Some [user_turn (Py.lit "Hello" ++ [10%N] ++ Py.lit "world")] |} ]
              alice) 0).
  - reflexivity.
  - reflexivity.
  - reflexivity.
  - simpl. lia.
  - vm_compute. discriminate.
Defined.

(** X11. Logging in does not clear the working transcript, which is
    shared by the whole process: the first chat request after a
    successful login stores, as a new last conversation of that user,
    the turns that were in memory (left there by any client) followed by
    the new user turn and assistant turn. The stored conversations the
    user already had are kept. *)
Theorem login_then_chat
    (w : werkzeug) (f : form) (env : environment) (req : chat_request)
    (st : state) (u : user) :
  Py.strip (default [] (form_username f)) ≠ [] →
  get_user st (Py.strip (default [] (form_username f))) = Some u →
  check_password_hash w (default [] (password_hash u))
                      (default [] (form_password f)) = true →
  request_content req ≠ [] →
  stored_conversations (chat env req (login w POST f st).2).2
    (Py.strip (default [] (form_username f)))
  = default [] (conversations u)
    ++ [ {| messages :=
              Some (prime (conversation_history st)
                    ++ [user_turn (request_content req);
                        assistant_turn
                          (assistant_content env req
                             (login w POST f st).2)]) |} ].
Proof.
  intros Hn Hu Hcheck Hc.
  rewrite (login_accepts w f st u Hu Hcheck). cbn [snd].
  set (st1 := set_session _ st).
  destruct (chat_new_conversation env req st1
              (Py.strip (default [] (form_username f))) u) as [-> _];
    try done.
  - by apply logged_in_named.
  - unfold answered, chat_payload. simpl. by rewrite <- app_assoc.
Qed.

Lemma login_then_chat_witness :
  stored_conversations
    (chat service_up hello
       (login plain_hashing POST bob_form
          {| users_file := [alice; bob];
             conversation_history :=
               [system_turn; user_turn (Py.lit "alice's secret");
                assistant_turn (Py.lit "noted")];
             sess := cleared |}).2).2 (Py.lit "bob")
  = [ {| messages :=
           Some [system_turn; user_turn (Py.lit "alice's secret");
                 assistant_turn (Py.lit "noted");
                 user_turn (Py.lit "Hello");
                 assistant_turn (Py.lit "Hi!")] |} ].
Proof.
  apply (login_then_chat plain_hashing bob_form service_up hello
           {| users_file := [alice; bob];
              conversation_history :=
                [system_turn; user_turn (Py.lit "alice's secret");
                 assistant_turn (Py.lit "noted")];
              sess := cleared |} bob).
  - vm_compute. discriminate.
  - reflexivity.
  - reflexivity.
  - vm_compute. discriminate.
Defined.

(** X12. Logging out empties the session and nothing else: the users
    file and the working transcript stay, the page routes redirect, the
    three conversation routes answer 401 and change nothing, and
    deleting a user is refused. *)
Theorem logout_closes_session (st : state) (i : Z) (name : Py.str) :
  users_file (logout st).2 = users_file st
  ∧ conversation_history (logout st).2 = conversation_history st
  ∧ sess (logout st).2 = cleared
  ∧ index (logout st).2 = RedirectTo (Py.lit "login")
  ∧ admin_panel (logout st).2 = RedirectTo (Py.lit "index")
  ∧ delete_user name (logout st).2
    = (RedirectTo (Py.lit "index"), (logout st).2)
  ∧ api_conversations (logout st).2 = not_authenticated
  ∧ api_get_conversation i (logout st).2
    = (not_authenticated, (logout st).2)
  ∧ api_new_chat (logout st).2 = (not_authenticated, (logout st).2).
Proof. repeat split. Qed.

Section Deleting.

Implicit Types (st : state) (name : Py.str).

Lemma delete_user_admin name st :
  session_role (sess st) = Some (Py.lit "admin") →
  delete_user name st
  = (RedirectTo (Py.lit "admin_panel"),
     set_session
       (if bool_decide (session_username (sess st) = Some name)
        then cleared else sess st)
       (save_users
          (filter (λ u, username u ≠ Some name) (users_file st)) st)).
Proof.
  intros Hrole. unfold delete_user.
  rewrite bool_decide_eq_false_2 by (intros H; by apply H).
  simpl. by destruct (bool_decide (session_username (sess st) = Some name)).
Qed.

Lemma delete_user_refused name st :
  session_role (sess st) ≠ Some (Py.lit "admin") →
  delete_user name st = (RedirectTo (Py.lit "index"), st).
Proof. intros Hrole. unfold delete_user. by rewrite bool_decide_eq_true_2. Qed.

Lemma get_user_after_delete name other st :
  session_role (sess st) = Some (Py.lit "admin") →
  get_user (delete_user name st).2 other
  = (if bool_decide (other = name) then None else get_user st other).
Proof.
  intros Hrole. rewrite delete_user_admin by done. cbn [snd].
  unfold get_user, load_users. cbn [set_session save_users users_file].
  case_bool_decide as Ho.
  - subst other. apply find_user_filter_gone.
  - by apply find_user_filter_other.
Qed.

End Deleting.

(** X13. Deleting a user: for a session whose role is not ["admin"] the
    route redirects and changes nothing. For an admin session, every
    record with that username is removed, every other username reads
    the record it read before, the working transcript is kept, and the
    session is cleared exactly when the admin deleted their own
    account. *)
Theorem delete_user_removes (name other : Py.str) (st : state) :
  (session_role (sess st) ≠ Some (Py.lit "admin") →
   delete_user name st = (RedirectTo (Py.lit "index"), st))
  ∧ (session_role (sess st) = Some (Py.lit "admin") →
     (delete_user name st).1 = RedirectTo (Py.lit "admin_panel")
     ∧ get_user (delete_user name st).2 name = None
     ∧ (Some name ∉ usernames (delete_user name st).2)
     ∧ (other ≠ name →
        get_user (delete_user name st).2 other = get_user st other)
     ∧ conversation_history (delete_user name st).2 = conversation_history st
     ∧ sess (delete_user name st).2
       = (if bool_decide (session_username (sess st) = Some name)
          then cleared else sess st)).
Proof.
  split; [apply delete_user_refused|].
  intros Hrole.
  assert (Hgone : get_user (delete_user name st).2 name = None).
  { rewrite get_user_after_delete by done. by rewrite bool_decide_eq_true_2. }
  split; [by rewrite delete_user_admin|]. split; [exact Hgone|].
  split; [by apply find_user_None|]. split.
  - intros Hne. rewrite get_user_after_delete by done.
    by rewrite bool_decide_eq_false_2.
  - rewrite delete_user_admin by done. cbn [snd].
    by destruct (bool_decide (session_username (sess st) = Some name)).
Qed.

(** X14. A session that outlives its account: once an admin has deleted
    a user, a client still holding that user's session gets 404 from the
    three conversation routes, which change nothing, and its chat
    requests write nothing to the users file; the account is not created
    again. *)
Theorem deleted_user_session
    (name : Py.str) (s : session) (st : state)
    (env : environment) (req : chat_request) (i : Z) :
  session_role (sess st) = Some (Py.lit "admin") →
  logged_in s = Some name →
  ∀ st', st' = with_session s (delete_user name st).2 →
    api_conversations st' = user_not_found
    ∧ api_get_conversation i st' = (user_not_found, st')
    ∧ api_new_chat st' = (user_not_found, st')
    ∧ users_file (chat env req st').2 = users_file st'
    ∧ get_user (chat env req st').2 name = None.
Proof.
  intros Hrole Hin st' ->.
  assert (Hgone : get_user (with_session s (delete_user name st).2) name = None).
  { pose proof (get_user_after_delete name name st Hrole) as H.
    rewrite bool_decide_eq_true_2 in H by done. exact H. }
  set (st' := with_session s _) in *.
  assert (Hin' : logged_in (sess st') = Some name) by exact Hin.
  assert (Hchat : users_file (chat env req st').2 = users_file st').
  { destruct (decide (request_content req = [])) as [Hc|Hc].
    - by rewrite chat_rejected.
    - rewrite chat_not_persisted by eauto. done. }
  unfold api_conversations, api_get_conversation, api_new_chat.
  rewrite Hin', Hgone. repeat split; try done.
  unfold get_user, load_users in *. by rewrite Hchat.
Qed.

Lemma deleted_user_session_witness :
  api_new_chat
    (with_session (alice_session (Some 0))
       (delete_user (Py.lit "alice")
          {| users_file := [root; alice]; conversation_history := [];
             sess := root_session |}).2)
  = (user_not_found,
     with_session (alice_session (Some 0))
       (delete_user (Py.lit "alice")
          {| users_file := [root; alice]; conversation_history := [];
             sess := root_session |}).2).
Proof.
  apply (deleted_user_session (Py.lit "alice") (alice_session (Some 0))
           {| users_file := [root; alice]; conversation_history := [];
              sess := root_session |} service_up hello 0
           eq_refl eq_refl _ eq_refl).
Defined.

(** ** The completion fallback *)

Section Fallback.

Variable env : environment.

Lemma or_else_nonempty (a b : Py.str) : b ≠ [] → Py.or_else a b ≠ [].
Proof. intros Hb. unfold Py.or_else. by destruct a. Qed.

Lemma legacy_returned_nonempty (p : payload) (text : Py.str) :
  legacy_attempt env p = Returned text → text ≠ [].
Proof.
  unfold legacy_attempt.
  destruct (post_legacy env p) as [e|data]; [done|].
  set (placeholder := Py.lit "No se recibió contenido del servicio LLM.").
  assert (Hp : placeholder ≠ []) by done.
  destruct (reply_message data) as [m|]; [destruct (Py.falsy m)|];
    try (intros [= <-]; by apply or_else_nonempty);
    (destruct (default _ (reply_choices data)); [done|];
     intros [= <-]; by apply or_else_nonempty).
Qed.

Lemma both_failed_text_nonempty (e first_error : Py.str) :
  both_failed_text e first_error ≠ [].
Proof. done. Qed.

End Fallback.

(** X15. The assistant text is the primary endpoint's content whenever
    the primary call succeeds, whatever the legacy endpoint would say;
    once the primary call has failed, the text is never empty: it is the
    legacy reply, the fixed placeholder, or the text reporting both
    errors. So [chat] returns an empty message only when the primary
    endpoint itself answered with an empty content. *)
Theorem assistant_text_empty_only_from_primary
    (env : environment) (req : chat_request) (st : state) :
  (∀ text,
     primary_attempt env (chat_payload env req st) = Returned text →
     assistant_content env req st = text)
  ∧ (∀ e,
       primary_attempt env (chat_payload env req st) = Failed e →
       assistant_content env req st ≠ [])
  ∧ (assistant_content env req st = [] →
     primary_attempt env (chat_payload env req st) = Returned []).
Proof.
  unfold assistant_content, complete.
  destruct (primary_attempt env (chat_payload env req st)) as [text|e1].
  - split; [by intros ? [= <-]|]. split; [done|]. by intros ->.
  - assert (Hne : match legacy_attempt env (chat_payload env req st) with
                  | Returned text => text
                  | Failed e => both_failed_text e e1
                  end ≠ []).
    { destruct (legacy_attempt env _) as [text|e2] eqn:Hl.
      - by eapply legacy_returned_nonempty.
      - apply both_failed_text_nonempty. }
    split; [done|]. split; [by intros ? _|]. intros H. by destruct Hne.
Qed.

(** ** The models route *)

Section Models.

Implicit Types (m : model_entry) (entries : list model_entry).

Lemma model_id_nonempty m i : model_id m = Some i → i ≠ [].
Proof.
  unfold model_id.
  destruct (match entry_id m with
            | Some i0 => if Py.falsy i0 then entry_name m else Some i0
            | None => entry_name m
            end) as [j|]; [|done].
  destruct j; [done|]. by intros [= <-].
Qed.

Lemma model_id_source m i :
  model_id m = Some i → entry_id m = Some i ∨ entry_name m = Some i.
Proof.
  unfold model_id.
  destruct (entry_id m) as [j|]; [destruct j as [|c j]|]; simpl.
  - destruct (entry_name m) as [[|c n]|]; [done| |done]. intros [= <-]. by right.
  - intros [= <-]. by left.
  - destruct (entry_name m) as [[|c n]|]; [done| |done]. intros [= <-]. by right.
Qed.

Lemma model_id_of_id m i : entry_id m = Some i → i ≠ [] → model_id m = Some i.
Proof. intros Hid Hne. unfold model_id. rewrite Hid. by destruct i. Qed.

Lemma omap_model_id_length entries :
  (length (omap model_id entries) ≤ length entries)%nat.
Proof.
  induction entries as [|m rest IH]; simpl; [done|].
  destruct (model_id m); simpl; change (list_omap _ _ model_id rest)
    with (omap model_id rest); lia.
Qed.

Lemma omap_model_id_nonempty entries :
  Forall (λ i, i ≠ []) (omap model_id entries).
Proof.
  induction entries as [|m rest IH]; simpl; [constructor|].
  destruct (model_id m) as [i|] eqn:Hm; [|exact IH].
  constructor; [by eapply model_id_nonempty | exact IH].
Qed.

End Models.

(** X16. When the reply that is used (the first one, or the second when
    the first call failed) is a dict with a ['data'] list, the models
    route answers 200 with a list of ids in which no id is empty, there
    is at most one id per entry, every entry with a non-empty ['id'] is
    listed under that id, and every listed id is the ['id'] or the
    ['name'] of an entry. *)
Theorem list_models_ids (svc : models_service) (entries : list model_entry) :
  get_v1_models svc = ModelsReply (ModelsObject (Some entries))
  ∨ ((∃ e, get_v1_models svc = ModelsFailure e)
     ∧ get_models svc = ModelsReply (ModelsObject (Some entries))) →
  ∃ ids,
    list_models svc = ModelsOk (Listed ids)
    ∧ Forall (λ i, i ≠ []) ids
    ∧ (length ids ≤ length entries)%nat
    ∧ (∀ m i, m ∈ entries → entry_id m = Some i → i ≠ [] → i ∈ ids)
    ∧ (∀ i, i ∈ ids →
         ∃ m, m ∈ entries ∧ (entry_id m = Some i ∨ entry_name m = Some i)).
Proof.
  intros Hreply. exists (omap model_id entries). split.
  { unfold list_models.
    destruct Hreply as [-> | [[e ->] ->]]; done. }
  split; [|split; [apply omap_model_id_length|split]].
  - apply omap_model_id_nonempty.
  - intros m i Hm Hid Hne. apply list_elem_of_omap.
    exists m. split; [done|]. by apply model_id_of_id.
  - intros i Hi. apply list_elem_of_omap in Hi as (m & Hm & Hid).
    exists m. split; [done|]. by apply model_id_source.
Qed.

Lemma list_models_ids_witness :
  ∃ ids,
    list_models
      {| get_v1_models := ModelsFailure (Py.lit "404 Client Error");
         get_models :=
           ModelsReply
             (ModelsObject
                (Some [ {| entry_id := Some (Py.lit "gpt-oss-20b");
                           entry_name := None |};
                        {| entry_id := None; entry_name := None |};
                        {| entry_id := Some [];
                           entry_name := Some (Py.lit "llama3") |} ])) |}
    = ModelsOk (Listed ids)
    ∧ Forall (λ i, i ≠ []) ids.
Proof.
  destruct (list_models_ids
              {| get_v1_models := ModelsFailure (Py.lit "404 Client Error");
                 get_models :=
                   ModelsReply
                     (ModelsObject
                        (Some [ {| entry_id := Some (Py.lit "gpt-oss-20b");
                                   entry_name := None |};
                                {| entry_id := None; entry_name := None |};
                                {| entry_id := Some [];
                                   entry_name := Some (Py.lit "llama3") |} ])) |}
              _ (or_intror (conj (ex_intro _ _ eq_refl) eq_refl)))
    as (ids & H1 & H2 & _).
  exists ids. split; [exact H1 | exact H2].
Defined.

(** X17. The models route answers with an error exactly when both calls
    failed; the status is then 500 and the error text is
    ["Error fetching models: "] followed by the error of the second call
    only. A reply that is not a dict with a ['data'] key is returned as it
    is under ["models"]. *)
Theorem list_models_error (svc : models_service) :
  (∀ error status,
     list_models svc = ModelsError error status
     ↔ ∃ e1 e2,
         get_v1_models svc = ModelsFailure e1
         ∧ get_models svc = ModelsFailure e2
         ∧ error = Py.lit "Error fetching models: " ++ e2
         ∧ status = 500)
  ∧ (∀ items,
       get_v1_models svc = ModelsReply (ModelsArray items) →
       list_models svc = ModelsOk (Verbatim (ModelsArray items)))
  ∧ (get_v1_models svc = ModelsReply (ModelsObject None) →
     list_models svc = ModelsOk (Verbatim (ModelsObject None))).
Proof.
  unfold list_models. split; [|split].
  - intros error status. split.
    + destruct (get_v1_models svc) as [e1|d1]; [|done].
      destruct (get_models svc) as [e2|d2]; [|done].
      intros [= <- <-]. by exists e1, e2.
    + by intros (e1 & e2 & -> & -> & -> & ->).
  - by intros items ->.
  - by intros ->.
Qed.

(** ** Blank messages *)

Section Blank.

Implicit Types (s : Py.str).

Lemma lstrip_nil s :
  Py.lstrip s = [] ↔ Forall (λ c, Py.isspace c = true) s.
Proof.
  induction s as [|c r IH]; simpl; [done|].
  destruct (Py.isspace c) eqn:Hc.
  - rewrite IH. split; [by constructor | by inversion 1].
  - split; [done | inversion 1; congruence].
Qed.

Lemma lstrip_suffix s : Py.lstrip s `suffix_of` s.
Proof.
  induction s as [|c r IH]; simpl; [done|].
  destruct (Py.isspace c); [by apply suffix_cons_r | done].
Qed.

Lemma lstrip_idempotent s : Py.lstrip (Py.lstrip s) = Py.lstrip s.
Proof.
  induction s as [|c r IH]; simpl; [done|].
  destruct (Py.isspace c) eqn:Hc; [done|]. simpl. by rewrite Hc.
Qed.

(** [strip] leaves nothing exactly when every character is white
    space. *)
Lemma strip_nil s :
  Py.strip s = [] ↔ Forall (λ c, Py.isspace c = true) s.
Proof.
  unfold Py.strip, Py.rstrip.
  rewrite <- (lstrip_nil s).
  split.
  - intros H. apply (f_equal reverse) in H.
    rewrite reverse_involutive, reverse_nil in H.
    apply (proj1 (lstrip_nil _)) in H.
    apply (proj1 (Forall_reverse _ _)) in H.
    apply (proj2 (lstrip_nil _)) in H.
    by rewrite lstrip_idempotent in H.
  - intros ->. done.
Qed.

End Blank.

Lemma chat_outcome (env : environment) (req : chat_request) (st : state) :
  request_content req ≠ [] →
  (chat env req st).1
  = Response (MessageJson (assistant_content env req st)) 200
  ∨ (chat env req st).1 = Raised IndexError.
Proof.
  intros Hc. unfold chat. rewrite (falsy_false _ Hc). simpl.
  destruct (logged_in (sess st)); [|by left].
  destruct (get_user _ _); [|by left].
  destruct (persist _ _); [by left | by right].
Qed.

(** X18. [chat] answers 400 ["Message is empty"] exactly when the message
    is missing or consists of white space only and nothing is attached;
    the state is then left as it was. *)
Theorem chat_rejects_blank
    (env : environment) (req : chat_request) (st : state) :
  ((chat env req st).1
   = Response (ErrorJson (Py.lit "Message is empty")) 400
   ↔ Forall (λ c, Py.isspace c = true) (default [] (req_message req))
     ∧ default [] (req_attachments req) = [])
  ∧ ((chat env req st).1
     = Response (ErrorJson (Py.lit "Message is empty")) 400 →
     (chat env req st).2 = st).
Proof.
  rewrite <- strip_nil, <- request_content_nil.
  destruct (decide (request_content req = [])) as [Hc|Hc].
  - rewrite chat_rejected by done. simpl. done.
  - destruct (chat_outcome env req st Hc) as [-> | ->];
      (split; [split; [intros [=] | done] | intros [=]]).
Qed.

(** ** The listing *)

Section Listing.

Implicit Types (s : Py.str) (convs : list conversation) (idx : nat).

Lemma first_line_no_line_feed s : 10%N ∉ Py.first_line s.
Proof.
  induction s as [|c r IH]; simpl; [apply not_elem_of_nil|].
  destruct (N.eqb_spec c 10); [apply not_elem_of_nil|].
  apply not_elem_of_cons. split; [congruence | exact IH].
Qed.

Lemma digits_no_line_feed (d : Decimal.uint) : 10%N ∉ Py.digits d.
Proof.
  induction d; simpl; [apply not_elem_of_nil|..];
    (apply not_elem_of_cons; split; [discriminate | assumption]).
Qed.

Lemma position_title_sound idx :
  position_title idx ≠ [] ∧ 10%N ∉ position_title idx.
Proof.
  unfold position_title. split; [discriminate|].
  apply not_elem_of_app. split.
  - apply (bool_decide_unpack _). vm_compute. exact I.
  - apply digits_no_line_feed.
Qed.

Lemma summary_title_sound idx (convo : conversation) :
  title (summary_of idx convo) ≠ []
  ∧ 10%N ∉ title (summary_of idx convo).
Proof.
  unfold summary_of. cbn [title]. rewrite title_loop_first_user.
  destruct (first_user_turn (default [] (messages convo))) as [msg|].
  - pose proof (first_line_no_line_feed (default [] (content msg))) as Hlf.
    assert (Hcut : 10%N ∉ Py.slice_to 50 (Py.first_line (default [] (content msg)))).
    { intros Hin. apply Hlf. by eapply subseteq_take. }
    unfold Py.or_else.
    destruct (Py.slice_to 50 _) as [|c t]; simpl;
      [apply position_title_sound | done].
  - split; [discriminate|].
    apply (bool_decide_unpack _). vm_compute. exact I.
Qed.

Lemma summaries_from_ids convs : ∀ idx,
  id <$> summaries_from idx convs = seq idx (length convs).
Proof.
  induction convs as [|c convs IH]; intros idx; [done|].
  cbn [summaries_from length seq]. rewrite fmap_cons, IH. done.
Qed.

Lemma summaries_from_titles convs : ∀ idx,
  Forall (λ e, title e ≠ [] ∧ 10%N ∉ title e) (summaries_from idx convs).
Proof.
  induction convs as [|c convs IH]; intros idx; simpl; constructor.
  - apply summary_title_sound.
  - apply IH.
Qed.

End Listing.

(** X19. In the listing of a logged-in user with a record, the ids are
    the positions [0, 1, ...] in order, and every title is usable as a
    one-line label: it is never empty and never contains a line feed. *)
Theorem listing_ids_and_titles (st : state) (name : Py.str) (u : user) :
  logged_in (sess st) = Some name →
  get_user st name = Some u →
  ∃ l,
    api_conversations st = Response (ConversationsJson l) 200
    ∧ id <$> l = seq 0 (length (default [] (conversations u)))
    ∧ Forall (λ e, title e ≠ [] ∧ 10%N ∉ title e) l.
Proof.
  intros Hin Hu.
  exists (summaries_from 0 (default [] (conversations u))).
  split; [by apply api_conversations_logged_in with name|].
  split; [apply summaries_from_ids | apply summaries_from_titles].
Qed.

Lemma listing_ids_and_titles_witness :
  ∃ l,
    api_conversations blank_first_line = Response (ConversationsJson l) 200
    ∧ id <$> l = [0%nat].
Proof.
  destruct (listing_ids_and_titles blank_first_line (Py.lit "alice")
              (set_conversations
                 [ {| messages :=
                        Some [user_turn ([10%N] ++ Py.lit "second line")] |} ]
                 alice) eq_refl eq_refl) as (l & Hl & Hids & _).
  exists l. split; [exact Hl | exact Hids].
Defined.

(** X20. The default admin account: [ensure_admin_user] changes nothing
    when the users file holds any record, and running it again changes
    nothing; on an empty users file it creates one account with which a
    login as ["admin"]/["admin"] succeeds as soon as the generated hash
    checks, giving a session with role ["admin"] that the admin panel
    accepts. *)
Theorem ensure_admin_user_login (w w' : werkzeug) (st : state) :
  (users_file st ≠ [] → ensure_admin_user w st = st)
  ∧ ensure_admin_user w' (ensure_admin_user w st) = ensure_admin_user w st
  ∧ (users_file st = [] →
     check_password_hash w'
       (generate_password_hash w (Py.lit "admin")) (Py.lit "admin") = true →
     (login w' POST admin_form (ensure_admin_user w st)).1
     = RedirectTo (Py.lit "index")
     ∧ sess (login w' POST admin_form (ensure_admin_user w st)).2
       = {| session_username := Some (Py.lit "admin");
            session_role := Some (Py.lit "admin");
            current_conversation := None |}
     ∧ admin_panel (login w' POST admin_form (ensure_admin_user w st)).2
       = AdminTemplate (users_file (ensure_admin_user w st))).
Proof.
  unfold ensure_admin_user, load_users.
  destruct (users_file st) as [|u0 rest] eqn:Hfile.
  - split; [done|]. split; [done|]. intros _ Hcheck.
    unfold login, get_user, load_users, admin_panel. simpl.
    rewrite Hcheck. done.
  - split; [done|]. split; [by rewrite Hfile | done].
Qed.

Lemma conversations_keep_users_select (i : Z) (st : state) :
  users_file (api_get_conversation i st).2 = users_file st.
Proof.
  unfold api_get_conversation.
  destruct (logged_in (sess st)) as [name|]; [|done].
  destruct (get_user st name) as [u|]; [|done].
  destruct (_ || _); [done|]. by destruct (_ !! _).
Qed.

Lemma chat_usernames (env : environment) (req : chat_request) (st : state) :
  usernames (chat env req st).2 = usernames st.
Proof.
  unfold usernames.
  destruct (decide (request_content req = [])) as [Hc|Hc].
  { by rewrite chat_rejected. }
  destruct (chat_shape env req st Hc)
    as (_ & _ & _ & [-> | (name & u & cs & _ & Hu & ->)]); [done|].
  rewrite (replace_user_usernames _ _ name)
    by exact (get_user_name _ _ _ Hu).
  unfold get_user, load_users in Hu. by rewrite Hu.
Qed.

(** ** Invariants over any sequence of requests *)

Section Invariants.

Implicit Types (st : state) (r : request) (w : world) (k : nat).

Lemma select_not_raised (i : Z) st :
  ∀ e, (api_get_conversation i st).1 ≠ Raised e.
Proof.
  intros e. unfold api_get_conversation.
  destruct (logged_in (sess st)) as [name|]; [|done].
  destruct (get_user st name) as [u|]; [|done].
  destruct (Z.ltb_spec i 0); [done|].
  destruct (Z.geb_spec i (Z.of_nat (length (default [] (conversations u)))));
    [done|]. simpl.
  destruct (lookup_lt_is_Some_2 (default [] (conversations u)) (Z.to_nat i))
    as [convo ->]; [lia | done].
Qed.

Lemma chat_not_raised (env : environment) (req : chat_request) st :
  pointer_ok st → ∀ e, (chat env req st).1 ≠ Raised e.
Proof.
  intros Hok e.
  destruct (decide (request_content req = [])) as [Hc|Hc].
  { by rewrite chat_rejected. }
  destruct (logged_in (sess st)) as [name|] eqn:Hin.
  - destruct (get_user st name) as [u|] eqn:Hu.
    + by rewrite (chat_logged_in env req st name u).
    + rewrite chat_not_persisted by eauto. done.
  - rewrite chat_not_persisted by eauto. done.
Qed.

Lemma pointer_ok_login (wz : werkzeug) (m : method) (f : form) st :
  pointer_ok st → pointer_ok (login wz m f st).2.
Proof.
  intros Hok. unfold login. destruct m; [done|].
  destruct (get_user st _) as [u|]; [|done].
  destruct (check_password_hash _ _ _); [|done].
  intros i [=].
Qed.

Lemma pointer_ok_register (wz : werkzeug) (m : method) (f : form) st :
  pointer_ok st → pointer_ok (register wz m f st).2.
Proof.
  intros Hok. unfold register. destruct m; [done|].
  destruct (_ || _); [done|]. case_bool_decide; [done|].
  by destruct (get_user st _).
Qed.

Lemma pointer_ok_delete (name : Py.str) st :
  pointer_ok st → pointer_ok (delete_user name st).2.
Proof.
  intros Hok. unfold delete_user.
  case_bool_decide; [done|]. simpl.
  case_bool_decide; [intros i [=] | done].
Qed.

(** Every route keeps the pointer well formed and, from a well-formed
    pointer, returns normally. *)
Lemma handle_pointer_ok r st :
  pointer_ok st →
  pointer_ok (handle r st).2 ∧ ∀ e, (handle r st).1 ≠ Api (Raised e).
Proof.
  intros Hok. destruct r as [|wz m f|wz m f| | |name| |i| | |env req];
    unfold handle.
  - done.
  - destruct (login wz m f st) as [v st'] eqn:E.
    split; [|done]. change st' with (v, st').2. rewrite <- E.
    by apply pointer_ok_login.
  - destruct (register wz m f st) as [v st'] eqn:E.
    split; [|done]. change st' with (v, st').2. rewrite <- E.
    by apply pointer_ok_register.
  - split; [intros i [=] | done].
  - done.
  - destruct (delete_user name st) as [v st'] eqn:E.
    split; [|done]. change st' with (v, st').2. rewrite <- E.
    by apply pointer_ok_delete.
  - split; [done|]. intros e. unfold api_conversations.
    destruct (logged_in (sess st)) as [n|]; [|done].
    by destruct (get_user st n).
  - destruct (api_get_conversation i st) as [o st'] eqn:E.
    split.
    + change st' with (o, st').2. rewrite <- E. by apply pointer_ok_select.
    + intros e [= ->]. by apply (select_not_raised i st e); rewrite E.
  - destruct (api_new_chat st) as [o st'] eqn:E.
    split.
    + change st' with (o, st').2. rewrite <- E. by apply pointer_ok_new_chat.
    + intros e [= ->]. revert E. unfold api_new_chat.
      destruct (logged_in (sess st)) as [n|]; [|done].
      by destruct (get_user st n).
  - done.
  - destruct (chat env req st) as [o st'] eqn:E.
    split.
    + change st' with (o, st').2. rewrite <- E. by apply pointer_ok_chat.
    + intros e [= ->]. by apply (chat_not_raised env req st Hok e); rewrite E.
Qed.

Lemma serve_pointer_ok k r w :
  (∀ j, pointer_ok (view_of j w)) →
  (∀ j, pointer_ok (view_of j (serve k r w).2))
  ∧ ∀ e, (serve k r w).1 ≠ Api (Raised e).
Proof.
  intros Hok. unfold serve.
  destruct (handle_pointer_ok r (view_of k w) (Hok k)) as [Hst Hout].
  destruct (handle r (view_of k w)) as [out st]. simpl in *.
  split; [|exact Hout].
  intros j i. unfold view_of. simpl.
  case_bool_decide; [apply Hst | apply (Hok j)].
Qed.

Lemma NoDup_usernames_filter (P : user → Prop) `{∀ u, Decision (P u)}
    (users : list user) :
  NoDup (username <$> users) → NoDup (username <$> filter P users).
Proof.
  induction users as [|u rest IH]; [done|].
  rewrite fmap_cons, list.NoDup_cons. intros [Hnot Hrest].
  rewrite filter_cons. case_decide; [|by apply IH].
  rewrite fmap_cons, list.NoDup_cons. split; [|by apply IH].
  intros Hin. apply Hnot.
  apply list_elem_of_fmap in Hin as (v & Hv & Hin).
  apply list_elem_of_filter in Hin as [_ Hin].
  apply list_elem_of_fmap. by exists v.
Qed.

(** Only registering and deleting change the usernames on file. *)
Lemma handle_usernames r st :
  match r with
  | Register wz POST f =>
    usernames (handle r st).2 = usernames st
    ∨ ∃ name, (Some name ∉ usernames st)
              ∧ usernames (handle r st).2 = usernames st ++ [Some name]
  | DeleteUser name =>
    usernames (handle r st).2 = usernames st
    ∨ usernames (handle r st).2
      = username <$> filter (λ u, username u ≠ Some name) (users_file st)
  | _ => usernames (handle r st).2 = usernames st
  end.
Proof.
  destruct r as [|wz m f|wz m f| | |name| |i| | |env req];
    unfold handle, usernames.
  - done.
  - unfold login. destruct m; [done|].
    destruct (get_user st _) as [u|]; [|done].
    by destruct (check_password_hash _ _ _).
  - destruct m; [done|].
    destruct (decide (Py.strip (default [] (form_username f)) ≠ []
                      ∧ default [] (form_password f) ≠ []
                      ∧ default [] (form_password f) = default [] (form_confirm f)
                      ∧ get_user st (Py.strip (default [] (form_username f))) = None))
      as [(Hn & Hp & Hc & Hfree)|Hbad].
    + right. exists (Py.strip (default [] (form_username f))).
      split; [by apply find_user_None|].
      rewrite register_accepts by done. simpl. by rewrite fmap_app.
    + left. destruct (register_rejects wz f st) as [e ->]; [|done].
      destruct (decide (Py.strip (default [] (form_username f)) = []));
        [by left|].
      destruct (decide (default [] (form_password f) = []));
        [by right; left|].
      destruct (decide (default [] (form_password f)
                        = default [] (form_confirm f)));
        [|by right; right; left].
      destruct (get_user st _) eqn:Hu; [by right; right; right|].
      by destruct Hbad.
  - done.
  - done.
  - unfold delete_user. case_bool_decide; [by left|]. right. simpl.
    by case_bool_decide.
  - done.
  - pose proof (conversations_keep_users_select i st) as H.
    destruct (api_get_conversation i st). simpl in *. by rewrite H.
  - unfold api_new_chat.
    destruct (logged_in (sess st)) as [n|]; [|done].
    destruct (get_user st n) as [u|] eqn:Hu; [|done]. simpl.
    rewrite (replace_user_usernames _ _ n)
      by exact (get_user_name _ _ _ Hu).
    unfold get_user in Hu. by rewrite Hu.
  - done.
  - pose proof (chat_usernames env req st) as H. unfold usernames in H.
    destruct (chat env req st). simpl in *. exact H.
Qed.

Lemma handle_usernames_unique r st :
  NoDup (usernames st) → NoDup (usernames (handle r st).2).
Proof.
  intros Hdup. pose proof (handle_usernames r st) as H.
  destruct r as [|wz m f|wz [|] f| | |name| |i| | |env req];
    try (by rewrite H).
  - destruct H as [-> | (name & Hfresh & ->)]; [done|].
    apply list.NoDup_app. split; [done|]. split; [|apply NoDup_singleton].
    intros x Hx Hin. apply list_elem_of_singleton in Hin. by subst.
  - destruct H as [-> | ->]; [done|]. by apply NoDup_usernames_filter.
Qed.

End Invariants.

(** X21. The index of the write-back is always in range. Whatever
    requests the clients send, in whatever order, no session ever stores
    a negative conversation pointer, provided no cookie held one to
    begin with (fresh cookies hold none); so [conversations[conv_idx]]
    in [chat] and [conversations[index]] in the select route never raise
    [IndexError]. *)
Theorem write_back_index_in_range (trace : list (nat * request)) (w : world) :
  (∀ k, pointer_ok (view_of k w)) →
  Forall (λ a, a ≠ Api (Raised IndexError)) (serve_all trace w).1
  ∧ ∀ k, pointer_ok (view_of k (serve_all trace w).2).
Proof.
  revert w. induction trace as [|[k r] rest IH]; intros w Hok; simpl.
  - split; [constructor | exact Hok].
  - destruct (serve_pointer_ok k r w Hok) as [Hok' Hout].
    destruct (serve k r w) as [out w'] eqn:E. simpl in *.
    destruct (IH w' Hok') as [Houts Hok''].
    destruct (serve_all rest w') as [outs w'']. simpl in *.
    split; [constructor; [apply Hout | exact Houts] | exact Hok''].
Qed.

Lemma write_back_index_in_range_witness :
  Forall (λ a, a ≠ Api (Raised IndexError))
    (serve_all
       [(0%nat, Login plain_hashing POST bob_form);
        (0%nat, Chat service_up hello);
        (1%nat, Chat service_down hello);
        (0%nat, GetConversation 7);
        (0%nat, NewChat);
        (0%nat, Chat service_down hello)]
       (fresh_world [alice; bob])).1.
Proof.
  apply (write_back_index_in_range
           [(0%nat, Login plain_hashing POST bob_form);
            (0%nat, Chat service_up hello);
            (1%nat, Chat service_down hello);
            (0%nat, GetConversation 7);
            (0%nat, NewChat);
            (0%nat, Chat service_down hello)]
           (fresh_world [alice; bob])).
  intros k i H. vm_compute in H. discriminate H.
Defined.

(** X22. Usernames stay unique: when no two records of the users file
    share a username, no sequence of requests by any clients makes two
    records share one. Registration refuses a name already on file, and
    every write-back replaces the record it read. *)
Theorem usernames_stay_unique (trace : list (nat * request)) (w : world) :
  NoDup (username <$> world_users w) →
  NoDup (username <$> world_users (serve_all trace w).2).
Proof.
  revert w. induction trace as [|[k r] rest IH]; intros w Hdup; simpl.
  - exact Hdup.
  - pose proof (handle_usernames_unique r (view_of k w) Hdup) as Hdup'.
    unfold serve.
    destruct (handle r (view_of k w)) as [out st]. simpl in *.
    set (w' := {| world_users := users_file st |}) in *.
    specialize (IH w' Hdup').
    destruct (serve_all rest w') as [outs w'']. exact IH.
Qed.

Lemma usernames_stay_unique_witness :
  NoDup
    (username <$>
     world_users
       (serve_all
          [(0%nat, Register plain_hashing POST bob_form);
           (1%nat, Register plain_hashing POST bob_form);
           (0%nat, Login plain_hashing POST bob_form);
           (0%nat, Chat service_up hello)]
          (fresh_world [alice])).2).
Proof.
  apply (usernames_stay_unique
           [(0%nat, Register plain_hashing POST bob_form);
            (1%nat, Register plain_hashing POST bob_form);
            (0%nat, Login plain_hashing POST bob_form);
            (0%nat, Chat service_up hello)]
           (fresh_world [alice])).
  apply (bool_decide_unpack _). vm_compute. exact I.
Defined.

(** X23. New chat, then the first message: the conversation just created
    receives exactly the system turn, the user turn and the assistant
    turn, whatever the working transcript held before; it stays the last
    stored conversation and the ones before it are kept. *)
Theorem create_then_chat
    (env : environment) (req : chat_request) (st : state)
    (name : Py.str) (u : user) :
  logged_in (sess st) = Some name →
  get_user st name = Some u →
  request_content req ≠ [] →
  stored_conversations (chat env req (api_new_chat st).2).2 name
  = default [] (conversations u)
    ++ [ {| messages :=
              Some [system_turn; user_turn (request_content req);
                    assistant_turn
                      (assistant_content env req (api_new_chat st).2)] |} ].
Proof.
  intros Hin Hu Hc.
  pose proof (get_user_name _ _ _ Hu) as Hname.
  rewrite (new_chat_logged_in st name u Hin Hu). cbn [snd].
  set (cs := default [] (conversations u)).
  set (u1 := set_conversations (cs ++ [empty_conversation]) u).
  set (st1 := set_current _ _).
  assert (Hu1 : get_user st1 name = Some u1).
  { unfold st1, get_user, load_users. simpl. by apply find_replace_user. }
  rewrite (chat_selected_conversation env req st1 name u1
             (Z.of_nat (length cs))); try done.
  - simpl. rewrite Nat2Z.id.
    rewrite insert_app_r_alt by lia.
    by replace (length cs - length cs)%nat with 0%nat by lia.
  - simpl. rewrite length_app. simpl. lia.
Qed.

Lemma create_then_chat_witness :
  stored_conversations
    (chat service_up hello
       (api_new_chat
          {| users_file := users_file hello_world;
             conversation_history := [user_turn (Py.lit "stale")];
             sess := alice_session None |}).2).2 (Py.lit "alice")
  = [ {| messages :=
           Some [user_turn (Py.lit "Hello" ++ [10%N] ++ Py.lit "world")] |};
      {| messages :=
           Some [system_turn; user_turn (Py.lit "Hello");
                 assistant_turn (Py.lit "Hi!")] |} ].
Proof.
  apply (create_then_chat service_up hello
           {| users_file := users_file hello_world;
              conversation_history := [user_turn (Py.lit "stale")];
              sess := alice_session None |}
           (Py.lit "alice")
           (set_conversations
              [ {| messages :=
                     Some [user_turn (Py.lit "Hello" ++ [10%N] ++ Py.lit "world")] |} ]
              alice)).
  - reflexivity.
  - reflexivity.
  - vm_compute. discriminate.
Defined.

(** ** Reading the users file back *)

Section Reload.

Implicit Types (s : Py.str) (t : turn) (users : list user) (name : Py.str).








(** On a users file whose records hold no surrogate pair, reading the
    file back gives what was written. *)
Lemma reopened_unchanged (st : state) :
  Forall (λ u, reload_user u = u) (users_file st) → reopened st = st.
Proof.
  intros Hall. unfold reopened. destruct st as [users h s]. simpl in *.
  f_equal. induction Hall as [|u rest Hu _ IH]; [done|].
  by rewrite fmap_cons, Hu, IH.
Qed.

End Reload.



